(** * ATS scoring engine: a shallow embedding of the scoring module

    The module ("Free/Open ATS Scoring API Integrations") scores a resume text with a local heuristic
    ([calculateLocalATSScore]), three remote adapters and an orchestrator
    ([getATSScore]) that falls back to the local heuristic when an adapter
    throws.

    JavaScript values are modelled as the language defines them:
    - a [number] is an IEEE 754 binary64 value ([spec_float] with precision
      53 and exponent bound 1024), all arithmetic is correctly rounded;
    - a string is its sequence of UTF-16 code units;
    - [throw] / [try ... catch] is the error monad [sum Error]. *)

From Stdlib Require Import ZArith NArith List Bool Lia String Ascii.
From Stdlib Require Import Floats.SpecFloat.
From Stdlib Require Import DecimalString.
From ExtLib Require Import Structures.Monad Structures.MonadExc.
From ExtLib Require Import Data.Monads.EitherMonad.
Import ListNotations.
Import MonadNotation.

Local Open Scope Z_scope.

(** ** Numbers: IEEE 754 binary64 *)

Module Number.

Definition prec : Z := 53.
Definition emax : Z := 1024.

Definition number : Type := spec_float.

(** An integer literal, or an integer-valued runtime quantity such as
    [Array.prototype.length], as a number. *)
Definition ofZ (z : Z) : number := binary_normalize prec emax z 0 false.

Definition add : number -> number -> number := SFadd prec emax.
Definition sub : number -> number -> number := SFsub prec emax.
Definition mul : number -> number -> number := SFmul prec emax.
Definition div : number -> number -> number := SFdiv prec emax.

(** [a < b], [a <= b], [a > b] of JavaScript: false when either is NaN. *)
Definition lt (a b : number) : bool := SFltb a b.
Definition le (a b : number) : bool := SFleb a b.
Definition gt (a b : number) : bool := SFltb b a.

(** The decimal literals of the source.  A literal denotes the binary64
    value nearest to the decimal; a correctly rounded division of the two
    exactly representable integers gives that value. *)
Definition lit_0_4 : number := div (ofZ 4) (ofZ 10).
Definition lit_0_3 : number := div (ofZ 3) (ofZ 10).
Definition lit_0_01 : number := div (ofZ 1) (ofZ 100).

(** [Math.round]: the integral number closest to [x], ties towards
    +Infinity; NaN, infinities, zeros and integral numbers are returned
    unchanged, and a result of zero keeps the sign of [x]. *)
Definition Math_round (x : number) : number :=
  match x with
  | S754_finite s m e =>
      if 0 <=? e then x
      else
        let n := (2 * cond_Zopp s (Zpos m) + 2 ^ (- e)) / 2 ^ (- e + 1) in
        match n with
        | Z0 => S754_zero s
        | _ => ofZ n
        end
  | _ => x
  end.

(** [Math.min(a, b)]: NaN if either is NaN, and -0 is below +0. *)
Definition Math_min (a b : number) : number :=
  match a, b with
  | S754_nan, _ | _, S754_nan => S754_nan
  | S754_zero false, S754_zero true => b
  | _, _ => if lt b a then b else a
  end.

(** [Math.max(a, b)]: NaN if either is NaN, and +0 is above -0. *)
Definition Math_max (a b : number) : number :=
  match a, b with
  | S754_nan, _ | _, S754_nan => S754_nan
  | S754_zero true, S754_zero false => b
  | _, _ => if gt b a then b else a
  end.

(** [Number.isInteger]. *)
Definition isInteger (x : number) : bool :=
  match x with
  | S754_zero _ => true
  | S754_finite _ m e =>
      if 0 <=? e then true else (Zpos m mod 2 ^ (- e) =? 0)
  | _ => false
  end.

(** Truthiness of a number: every number but 0, -0 and NaN. *)
Definition truthy (x : number) : bool :=
  match x with
  | S754_zero _ | S754_nan => false
  | _ => true
  end.

End Number.

Import Number.

(** ** Strings: sequences of UTF-16 code units *)

Definition jsstring : Type := list N.

(** A source literal.  Every literal of the file is ASCII, so each
    character is one code unit. *)
Definition js (s : string) : jsstring :=
  List.map N_of_ascii (list_ascii_of_string s).

Fixpoint startsWith (s p : jsstring) {struct p} : bool :=
  match p, s with
  | [], _ => true
  | _ :: _, [] => false
  | c :: p', d :: s' => (c =? d)%N && startsWith s' p'
  end.

(** [String.prototype.includes]: [p] occurs in [s] as a contiguous run of
    code units. *)
Fixpoint includes (s p : jsstring) : bool :=
  startsWith s p ||
  match s with
  | [] => false
  | _ :: s' => includes s' p
  end.

(** The code units matched by [\s] in a regular expression without the
    [u] flag: WhiteSpace and LineTerminator of ECMAScript. *)
Definition isWhiteSpace (c : N) : bool :=
  ((9 <=? c) && (c <=? 13) || (c =? 32) || (c =? 160) || (c =? 5760)
   || (8192 <=? c) && (c <=? 8202) || (c =? 8232) || (c =? 8233)
   || (c =? 8239) || (c =? 8287) || (c =? 12288) || (c =? 65279))%N.

(** [s.split(/\s+/)]: the pieces between maximal runs of white space,
    the empty pieces before a leading run and after a trailing run
    included.  [cur] holds the current piece reversed, [inWs] tells
    whether the previous code unit belonged to a separator. *)
Fixpoint splitWsFrom (inWs : bool) (cur : jsstring) (s : jsstring)
  : list jsstring :=
  match s with
  | [] => [rev cur]
  | c :: s' =>
      if isWhiteSpace c then
        if inWs then splitWsFrom true [] s'
        else rev cur :: splitWsFrom true [] s'
      else splitWsFrom false (c :: cur) s'
  end.

Definition splitWs (s : jsstring) : list jsstring := splitWsFrom false [] s.

(** [String.prototype.toLowerCase] on a string of ASCII code units. *)
Definition lowerAscii (c : N) : N :=
  if ((65 <=? c) && (c <=? 90))%N then (c + 32)%N else c.

Definition isAscii (c : N) : Prop := (c < 128)%N.

(** GREEK SMALL LETTER FINAL SIGMA and GREEK SMALL LETTER SIGMA, the two
    lower-case forms of U+03A3. *)
Definition isSigma (c : N) : Prop := c = 962%N \/ c = 963%N.

Definition sigmaEq (a b : N) : Prop := a = b \/ (isSigma a /\ isSigma b).

(** The part of the JavaScript runtime the engine relies on and that is
    not defined by the repository: Unicode lower-casing.  The two laws are
    the facts of ECMAScript's [toLowerCase] the engine's properties depend
    on: on ASCII text it lowers A-Z and keeps every other code unit; and
    appending ASCII text leaves the lower-cased prefix as it was, but for
    a capital sigma of the prefix whose final form (the only
    context-sensitive mapping of the Unicode default case conversion) may
    turn into the non-final one. *)
Class StringRuntime : Type := {
  toLowerCase : jsstring -> jsstring;
  toLowerCase_ascii :
    forall s, Forall isAscii s -> toLowerCase s = List.map lowerAscii s;
  toLowerCase_app_ascii :
    forall t s, Forall isAscii s ->
      exists u, toLowerCase (t ++ s) = u ++ toLowerCase s
                /\ Forall2 sigmaEq u (toLowerCase t)
}.

(** The runtime restricted to the Basic Latin case pairs. *)
#[export, refine] Instance latinRuntime : StringRuntime := {
  toLowerCase := List.map lowerAscii
}.
Proof.
- reflexivity.
- intros t s _. exists (List.map lowerAscii t). split.
  + apply map_app.
  + induction t; constructor; [left; reflexivity | assumption].
Defined.

(** ** The data model *)

Record Breakdown : Type := {
  keywordMatch : number;
  formatting : number;
  structure : number;
  contentQuality : number
}.

Record ATSScoreResult : Type := {
  score : number;
  suggestions : list jsstring;
  keywords : list jsstring;
  missingKeywords : list jsstring;
  breakdown : option Breakdown
}.

(** [===] on two strings. *)
Fixpoint strictEq (a b : jsstring) : bool :=
  match a, b with
  | [], [] => true
  | c :: a', d :: b' => (c =? d)%N && strictEq a' b'
  | _, _ => false
  end.

(** [Array.prototype.includes] on an array of strings. *)
Definition arrayIncludes (l : list jsstring) (k : jsstring) : bool :=
  existsb (strictEq k) l.

(** [Array.prototype.slice(0, n)]. *)
Definition slice0 {A : Type} (n : nat) (l : list A) : list A := firstn n l.

(** [a.length] of an array or a string, as the integer it is. *)
Definition len {A : Type} (l : list A) : Z := Z.of_nat (List.length l).

(** ** The keyword catalog *)

Definition commonKeywords : list jsstring :=
  List.map js
    ["python"; "javascript"; "react"; "node.js"; "sql"; "aws"; "docker";
     "kubernetes"; "machine learning"; "data analysis";
     "project management"; "leadership"; "communication"; "teamwork";
     "problem solving"; "analytical skills"; "agile"; "scrum"; "git"; "api";
     "rest"; "microservices"]%string.

Definition techKeywords : list jsstring :=
  List.map js ["python"; "javascript"; "react"; "sql"; "aws"]%string.

Definition actionVerbs : list jsstring :=
  List.map js ["developed"; "implemented"; "managed"; "created"]%string.

(** The shorter catalog local to [extractKeywords]. *)
Definition extractCatalog : list jsstring :=
  List.map js
    ["python"; "javascript"; "react"; "node.js"; "sql"; "aws"; "docker";
     "project management"; "leadership"; "communication"; "teamwork"]%string.

(** ** The suggestion generator *)

Definition correctiveSuggestions : list jsstring :=
  List.map js
    ["Add more relevant keywords from the job description";
     "Include quantifiable achievements and metrics";
     "Use action verbs to describe your experience"]%string.

Definition refinementSuggestions : list jsstring :=
  List.map js
    ["Consider adding more industry-specific terminology";
     "Ensure all required sections are present";
     "Remove any complex formatting or tables"]%string.

Definition affirmingSuggestions : list jsstring :=
  List.map js
    ["Great job! Your CV is well-optimized for ATS";
     "Consider customizing keywords for specific job applications"]%string.

Definition generateSuggestions (score : number) : list jsstring :=
  if lt score (ofZ 60) then correctiveSuggestions
  else if lt score (ofZ 80) then refinementSuggestions
  else affirmingSuggestions.

Section Engine.

Context {R : StringRuntime}.

(** ** Helper heuristics of the remote adapters *)

Definition calculateBasicATSScore (cvText summary : jsstring) : number :=
  let text := toLowerCase cvText in
  let summaryLower := toLowerCase summary in
  let score := ofZ 70 in
  let score := if 50 <? len summaryLower then add score (ofZ 10) else score in
  let foundTech := filter (fun k => includes text k) techKeywords in
  let score :=
    add score (mul (div (ofZ (len foundTech)) (ofZ (len techKeywords)))
                   (ofZ 15)) in
  let foundVerbs := filter (fun v => includes text v) actionVerbs in
  let score :=
    add score (mul (div (ofZ (len foundVerbs)) (ofZ (len actionVerbs)))
                   (ofZ 5)) in
  Math_min (ofZ 100) score.

Definition extractKeywords (text : jsstring) : list jsstring :=
  filter (fun keyword => includes (toLowerCase text) (toLowerCase keyword))
         extractCatalog.

(** ** The local heuristic scorer *)

Definition calculateLocalATSScore (cvText : jsstring) : ATSScoreResult :=
  let text := toLowerCase cvText in
  let words := filter (fun word => 0 <? len word) (splitWs text) in
  let foundKeywords := filter (fun keyword => includes text keyword)
                              commonKeywords in
  let keywordScore :=
    mul (div (ofZ (len foundKeywords)) (ofZ (len commonKeywords)))
        (ofZ 100) in
  let formattingScore := ofZ 100 in
  let formattingScore :=
    if includes text (js "table") || includes text (js "image")
    then sub formattingScore (ofZ 30) else formattingScore in
  let formattingScore :=
    if 2000 <? len words then sub formattingScore (ofZ 20)
    else formattingScore in
  let formattingScore :=
    if len words <? 200 then sub formattingScore (ofZ 15)
    else formattingScore in
  let structureScore := ofZ 100 in
  let structureScore :=
    if negb (includes text (js "email")) && negb (includes text (js "@"))
    then sub structureScore (ofZ 20) else structureScore in
  let structureScore :=
    if negb (includes text (js "experience"))
    then sub structureScore (ofZ 25) else structureScore in
  let structureScore :=
    if negb (includes text (js "education"))
    then sub structureScore (ofZ 20) else structureScore in
  let structureScore :=
    if negb (includes text (js "skills"))
    then sub structureScore (ofZ 20) else structureScore in
  let totalScore :=
    Math_round (add (add (mul keywordScore lit_0_4)
                         (mul formattingScore lit_0_3))
                    (mul structureScore lit_0_3)) in
  {| score := Math_max (ofZ 0) (Math_min (ofZ 100) totalScore);
     suggestions := generateSuggestions totalScore;
     keywords := foundKeywords;
     missingKeywords :=
       slice0 5 (filter (fun k => negb (arrayIncludes foundKeywords k))
                        commonKeywords);
     breakdown :=
       Some {| keywordMatch := Math_round keywordScore;
               formatting := Math_round formattingScore;
               structure := Math_round structureScore;
               contentQuality := ofZ 75 |} |}.

End Engine.

(** ** The remote world

    What a [fetch] and the reading of its body yield is decided outside
    the program; it is an input of the model.  An [Error] carries its
    message.  The adapters read the payload through the fields below: an
    absent (or [null]/[undefined]) field is [None]; a payload on which the
    adapter's property reads throw, or a body that is not JSON, makes
    [json] fail.  [console.error] writes to the console only and is left
    out. *)

Inductive Error : Type := mkError (message : jsstring).

(** A promise is read through [await]: it yields a value or throws. *)
Abbreviation Promise := (sum Error).

Record Response (A : Type) : Type := {
  ok : bool;
  json : Promise A
}.

Arguments ok {A} _.
Arguments json {A} _.

(** The payloads hold the fields the adapters read, at the types the
    adapters use them at.  A body of another shape (a [summary_text] that
    is not a string, [entities] that is not an array) makes the adapter
    throw inside its [try], so that it fails with its own error; such a
    body is not a value of these types, and no statement below says that
    a readable body is enough for a result. *)
Record ResumeWordedData : Type := {
  data_score : option number;
  data_suggestions : option (list jsstring);
  data_keywords : option (list jsstring);
  data_missing_keywords : option (list jsstring)
}.

Record HuggingFaceData : Type := {
  summary_text : option jsstring
}.

Record Entity : Type := {
  name : jsstring;
  type : jsstring;
  salience : number
}.

Record GoogleData : Type := {
  entities : option (list Entity)
}.

Record Remote : Type := {
  fetchResumeWorded : jsstring -> Promise (Response ResumeWordedData);
  fetchHuggingFace : jsstring -> Promise (Response HuggingFaceData);
  fetchGoogleNLP : jsstring -> Promise (Response GoogleData)
}.

(** [x || d] on an optional number and on an optional array (an array is
    always truthy). *)
Definition orNumber (x : option number) (d : number) : number :=
  match x with
  | Some v => if truthy v then v else d
  | None => d
  end.

Definition orArray {A : Type} (x : option (list A)) (d : list A) : list A :=
  match x with
  | Some v => v
  | None => d
  end.

Definition calculateScoreFromEntities (entities : list Entity)
  (cvText : jsstring) : number :=
  let score := ofZ 70 in
  let relevantEntities :=
    filter (fun e => gt (salience e) lit_0_01) entities in
  let score :=
    add score (Math_min (ofZ 20) (mul (ofZ (len relevantEntities)) (ofZ 2))) in
  let hasTechnicalTerms :=
    existsb (fun e => strictEq (type e) (js "ORGANIZATION")
                      || strictEq (type e) (js "OTHER")) entities in
  let score := if hasTechnicalTerms then add score (ofZ 10) else score in
  Math_min (ofZ 100) score.

Section Orchestrator.

Context {R : StringRuntime}.
Variable remote : Remote.

Local Open Scope monad_scope.

Definition throw {A : Type} (msg : string) : Promise A :=
  raise (mkError (js msg)).

Definition getResumeWordedScore (cvText : jsstring) : Promise ATSScoreResult :=
  catch
    (response <- fetchResumeWorded remote cvText ;;
     (if negb (ok response) then throw "ResumeWorded API failed"
      else ret tt) ;;
     data <- json response ;;
     ret {| score := orNumber (data_score data) (ofZ 75);
            suggestions := orArray (data_suggestions data) [];
            keywords := orArray (data_keywords data) [];
            missingKeywords := orArray (data_missing_keywords data) [];
            breakdown := None |})
    (fun _ => throw "Failed to get ATS score from ResumeWorded").

Definition getHuggingFaceScore (cvText : jsstring) : Promise ATSScoreResult :=
  catch
    (response <- fetchHuggingFace remote cvText ;;
     (if negb (ok response) then throw "Hugging Face API failed"
      else ret tt) ;;
     data <- json response ;;
     let summary :=
       match summary_text data with
       | Some (_ :: _ as s) => s
       | _ => js ""
       end in
     let score := calculateBasicATSScore cvText summary in
     ret {| score := score;
            suggestions := generateSuggestions score;
            keywords := extractKeywords cvText;
            missingKeywords := [];
            breakdown := None |})
    (fun _ => throw "Failed to get ATS score from Hugging Face").

Definition getGoogleNLPScore (cvText : jsstring) : Promise ATSScoreResult :=
  catch
    (response <- fetchGoogleNLP remote cvText ;;
     (if negb (ok response) then throw "Google NLP API failed"
      else ret tt) ;;
     data <- json response ;;
     let entities := orArray (entities data) [] in
     let technicalEntities :=
       filter (fun entity => strictEq (type entity) (js "ORGANIZATION")
                             || strictEq (type entity) (js "OTHER"))
              entities in
     let score := calculateScoreFromEntities technicalEntities cvText in
     ret {| score := score;
            suggestions := generateSuggestions score;
            keywords := slice0 10 (List.map name technicalEntities);
            missingKeywords := [];
            breakdown := None |})
    (fun _ => throw "Failed to get ATS score from Google NLP").

Inductive ApiPreference : Type :=
| resumeworded
| huggingface
| google
| local.

(** The orchestrator; an omitted preference ([None]) defaults to
    [local]. *)
Definition getATSScore (cvText : jsstring)
  (apiPreference : option ApiPreference) : Promise ATSScoreResult :=
  let apiPreference :=
    match apiPreference with Some p => p | None => local end in
  catch
    (match apiPreference with
     | resumeworded => getResumeWordedScore cvText
     | huggingface => getHuggingFaceScore cvText
     | google => getGoogleNLPScore cvText
     | local => ret (calculateLocalATSScore cvText)
     end)
    (fun _ => ret (calculateLocalATSScore cvText)).

End Orchestrator.

(** ** The local variables of [calculateLocalATSScore]

    The same expressions as in the body of the function, named so that
    statements can refer to them; [calculateLocalATSScore_locals] below
    ties them to the function. *)

Section Locals.

Context {R : StringRuntime}.

Definition wordCount (cvText : jsstring) : Z :=
  len (filter (fun word => 0 <? len word) (splitWs (toLowerCase cvText))).

Definition foundKeywords (cvText : jsstring) : list jsstring :=
  filter (fun keyword => includes (toLowerCase cvText) keyword) commonKeywords.

(** The three sub-scores as functions of what the text decides: the
    number of catalog terms found and which penalties fire. *)
Definition keywordScoreOf (n : nat) : number :=
  mul (div (ofZ (Z.of_nat n)) (ofZ 22)) (ofZ 100).

Definition formattingScoreOf (layout long short : bool) : number :=
  let f := ofZ 100 in
  let f := if layout then sub f (ofZ 30) else f in
  let f := if long then sub f (ofZ 20) else f in
  if short then sub f (ofZ 15) else f.

Definition structureScoreOf (contact experience education skills : bool)
  : number :=
  let s := ofZ 100 in
  let s := if contact then sub s (ofZ 20) else s in
  let s := if experience then sub s (ofZ 25) else s in
  let s := if education then sub s (ofZ 20) else s in
  if skills then sub s (ofZ 20) else s.

Definition totalScoreOf (k f s : number) : number :=
  Math_round (add (add (mul k lit_0_4) (mul f lit_0_3)) (mul s lit_0_3)).

Definition keywordScore (cvText : jsstring) : number :=
  keywordScoreOf (List.length (foundKeywords cvText)).

Definition formattingScore (cvText : jsstring) : number :=
  let text := toLowerCase cvText in
  formattingScoreOf
    (includes text (js "table") || includes text (js "image"))
    (2000 <? wordCount cvText)
    (wordCount cvText <? 200).

Definition structureScore (cvText : jsstring) : number :=
  let text := toLowerCase cvText in
  structureScoreOf
    (negb (includes text (js "email")) && negb (includes text (js "@")))
    (negb (includes text (js "experience")))
    (negb (includes text (js "education")))
    (negb (includes text (js "skills"))).

Definition totalScore (cvText : jsstring) : number :=
  totalScoreOf (keywordScore cvText) (formattingScore cvText)
               (structureScore cvText).

End Locals.

(** The clamp applied to the aggregate. *)
Definition clamp (x : number) : number :=
  Math_max (ofZ 0) (Math_min (ofZ 100) x).

Definition inRange (lo hi : Z) (x : number) : bool :=
  le (ofZ lo) x && le x (ofZ hi).

(** Structural equality of two numbers. *)
Definition sameNumber (x y : number) : bool :=
  match x, y with
  | S754_zero a, S754_zero b => Bool.eqb a b
  | S754_infinity a, S754_infinity b => Bool.eqb a b
  | S754_nan, S754_nan => true
  | S754_finite a m e, S754_finite b n f =>
      Bool.eqb a b && (m =? n)%positive && (e =? f)
  | _, _ => false
  end.

(** Bounded quantifiers that compute. *)
Definition forallBool (P : bool -> bool) : bool := P true && P false.

Definition forallUpTo (k : nat) (P : nat -> bool) : bool :=
  forallb P (seq 0 (S k)).

(** ** The score tables

    A text reaches the arithmetic only through the number of catalog terms
    it contains (0 to 22) and seven tests, so every numeric property of
    the local scorer is a property of finitely many binary64
    computations. *)

Definition exclusive (long short : bool) : bool := negb (long && short).

Definition keywordCheck (n : nat) : bool :=
  let k := keywordScoreOf n in
  inRange 0 100 k && sameNumber (clamp k) k && inRange 0 100 (Math_round k).

Definition formattingCheck (layout long short : bool) : bool :=
  let f := formattingScoreOf layout long short in
  inRange 0 100 f && sameNumber (clamp f) f && sameNumber (Math_round f) f
  && implb (exclusive long short) (le (ofZ 50) f).

Definition structureCheck (c e d s : bool) : bool :=
  let x := structureScoreOf c e d s in
  inRange 15 100 x && sameNumber (clamp x) x && sameNumber (Math_round x) x.

Definition totalCheck (n : nat) (layout long short c e d s : bool) : bool :=
  let t := totalScoreOf (keywordScoreOf n)
                        (formattingScoreOf layout long short)
                        (structureScoreOf c e d s) in
  inRange 0 100 (clamp t) && isInteger (clamp t)
  && implb (exclusive long short)
           (le (ofZ 20) t && sameNumber (clamp t) t
            && sameNumber (Math_min (ofZ 100) t) t).

(** ** Statement vocabulary *)

(** A suffix made of catalog keywords only, possibly set apart by
    spaces. *)
Inductive keywordSuffix : jsstring -> Prop :=
| suffix_nil : keywordSuffix []
| suffix_keyword (k s : jsstring) :
    In k commonKeywords -> keywordSuffix s -> keywordSuffix (k ++ s)
| suffix_space (s : jsstring) :
    keywordSuffix s -> keywordSuffix (32%N :: s).

Definition allAscii (s : jsstring) : bool := forallb (fun c => c <? 128)%N s.

(** The synthetic score as a function of what the texts decide: whether
    the summary is longer than 50 code units, and how many technical
    keywords and action verbs the resume contains. *)
Definition basicScoreOf (longSummary : bool) (tech verbs : nat) : number :=
  let score := ofZ 70 in
  let score := if longSummary then add score (ofZ 10) else score in
  let score :=
    add score (mul (div (ofZ (Z.of_nat tech)) (ofZ 5)) (ofZ 15)) in
  let score :=
    add score (mul (div (ofZ (Z.of_nat verbs)) (ofZ 4)) (ofZ 5)) in
  Math_min (ofZ 100) score.

(** The remote adapter a preference selects; [local] selects none. *)
Definition remoteAdapter {R : StringRuntime} (remote : Remote)
  (p : ApiPreference) : option (jsstring -> Promise ATSScoreResult) :=
  match p with
  | resumeworded => Some (getResumeWordedScore remote)
  | huggingface => Some (getHuggingFaceScore remote)
  | google => Some (getGoogleNLPScore remote)
  | local => None
  end.

(** A remote world in which every [fetch] is rejected. *)
Definition offline : Remote :=
  {| fetchResumeWorded := fun _ => inl (mkError (js "fetch failed"));
     fetchHuggingFace := fun _ => inl (mkError (js "fetch failed"));
     fetchGoogleNLP := fun _ => inl (mkError (js "fetch failed")) |}.

(** A remote world in which the summarization service answers with an
    empty payload, and the other two providers are unreachable. *)
Definition summarizerOnly : Remote :=
  {| fetchResumeWorded := fun _ => inl (mkError (js "fetch failed"));
     fetchHuggingFace := fun _ =>
       inr {| ok := true; json := inr {| summary_text := None |} |};
     fetchGoogleNLP := fun _ => inl (mkError (js "fetch failed")) |}.

(** A small resume for concrete runs. *)
Definition sampleResume : jsstring :=
  js "Jane Doe  jane@example.org  Experience: built a REST API in Python".

(** ** The results the adapters build from a payload

    The record each adapter returns once the body is read, as a function
    of the payload. *)

Section AdapterResults.

Context {R : StringRuntime}.

Definition resumeWordedResult (data : ResumeWordedData) : ATSScoreResult :=
  {| score := orNumber (data_score data) (ofZ 75);
     suggestions := orArray (data_suggestions data) [];
     keywords := orArray (data_keywords data) [];
     missingKeywords := orArray (data_missing_keywords data) [];
     breakdown := None |}.

Definition huggingFaceResult (cvText : jsstring) (data : HuggingFaceData)
  : ATSScoreResult :=
  let summary :=
    match summary_text data with
    | Some (_ :: _ as s) => s
    | _ => js ""
    end in
  let score := calculateBasicATSScore cvText summary in
  {| score := score;
     suggestions := generateSuggestions score;
     keywords := extractKeywords cvText;
     missingKeywords := [];
     breakdown := None |}.

Definition isTechnical (entity : Entity) : bool :=
  strictEq (type entity) (js "ORGANIZATION")
  || strictEq (type entity) (js "OTHER").

Definition googleResult (cvText : jsstring) (data : GoogleData)
  : ATSScoreResult :=
  let entities := orArray (entities data) [] in
  let technicalEntities := filter isTechnical entities in
  let score := calculateScoreFromEntities technicalEntities cvText in
  {| score := score;
     suggestions := generateSuggestions score;
     keywords := slice0 10 (List.map name technicalEntities);
     missingKeywords := [];
     breakdown := None |}.

End AdapterResults.

(** The message of the error an adapter throws. *)
Definition failureMessage (p : ApiPreference) : string :=
  match p with
  | resumeworded => "Failed to get ATS score from ResumeWorded"
  | huggingface => "Failed to get ATS score from Hugging Face"
  | google => "Failed to get ATS score from Google NLP"
  | local => ""
  end.

(** A remote world whose first provider answers with the given score and
    nothing else, the other two being unreachable. *)
Definition resumeWordedScoring (s : number) : Remote :=
  {| fetchResumeWorded := fun _ =>
       inr {| ok := true;
              json := inr {| data_score := Some s;
                             data_suggestions := None;
                             data_keywords := None;
                             data_missing_keywords := None |} |};
     fetchHuggingFace := fun _ => inl (mkError (js "fetch failed"));
     fetchGoogleNLP := fun _ => inl (mkError (js "fetch failed")) |}.

(** A remote world whose summarization service answers with a status that
    is not ok, although the body is a readable payload. *)
Definition summarizerRefusing : Remote :=
  {| fetchResumeWorded := fun _ => inl (mkError (js "fetch failed"));
     fetchHuggingFace := fun _ =>
       inr {| ok := false; json := inr {| summary_text := None |} |};
     fetchGoogleNLP := fun _ => inl (mkError (js "fetch failed")) |}.

(** ** The entity-based score, in integers *)

Definition isRelevant (e : Entity) : bool := gt (salience e) lit_0_01.

(** The score as a function of the number of salient entities and of the
    presence of an organization or "other" entity, as binary64 arithmetic
    computes it and as the integer it stands for. *)
Definition entityScoreOf (k : Z) (technical : bool) : number :=
  let score := ofZ 70 in
  let score := add score (Math_min (ofZ 20) (mul (ofZ k) (ofZ 2))) in
  let score := if technical then add score (ofZ 10) else score in
  Math_min (ofZ 100) score.

Definition entityPoints (k : Z) (technical : bool) : Z :=
  Z.min 100 (70 + Z.min 20 (k * 2) + (if technical then 10 else 0)).

(** A remote world whose entity service answers with the given entities,
    the other two providers being unreachable. *)
Definition entityService (l : list Entity) : Remote :=
  {| fetchResumeWorded := fun _ => inl (mkError (js "fetch failed"));
     fetchHuggingFace := fun _ => inl (mkError (js "fetch failed"));
     fetchGoogleNLP := fun _ =>
       inr {| ok := true; json := inr {| entities := Some l |} |} |}.

Definition acme : Entity :=
  {| name := js "Acme"; type := js "ORGANIZATION";
     salience := div (ofZ 1) (ofZ 2) |}.

Definition paris : Entity :=
  {| name := js "Paris"; type := js "LOCATION";
     salience := div (ofZ 1) (ofZ 4) |}.

(** ** The score page

    The pure helpers of the page that shows an [ATSScoreResult]. *)

Module ScorePage.

(** [a >= b] of JavaScript: false when either is NaN. *)
Definition ge (a b : number) : bool := SFleb b a.

Definition getScoreColor (score : number) : jsstring :=
  if ge score (ofZ 80) then js "text-green-500"
  else if ge score (ofZ 60) then js "text-yellow-500"
  else js "text-red-500".

Definition getScoreBgColor (score : number) : jsstring :=
  if ge score (ofZ 80) then js "bg-green-500"
  else if ge score (ofZ 60) then js "bg-yellow-500"
  else js "bg-red-500".

Definition getScoreMessage (score : number) : jsstring :=
  if ge score (ofZ 80) then js "Excellent! Your CV is highly ATS-friendly."
  else if ge score (ofZ 60)
       then js "Good! Your CV has decent ATS compatibility."
  else js "Needs improvement. Consider optimizing your CV for better ATS scores.".

End ScorePage.

(** ** The CV form: text size *)

Module CVForm.

(** The state update of [adjustTextSize]: the new size from the previous
    one. *)
Definition adjustTextSize (delta prev : number) : number :=
  Math_max (ofZ 12) (Math_min (ofZ 24) (add prev delta)).

(** The two buttons of the form call [adjustTextSize(-2)] and
    [adjustTextSize(2)]; the size starts at 16. *)
Inductive Click : Type := Smaller | Larger.

Definition delta (c : Click) : number :=
  match c with
  | Smaller => ofZ (-2)
  | Larger => ofZ 2
  end.

Definition initialTextSize : number := ofZ 16.

Definition textSizeAfter (clicks : list Click) : number :=
  fold_left (fun size c => adjustTextSize (delta c) size) clicks
            initialTextSize.

End CVForm.

(** ** The CV service: validation, metadata, formatting *)

Module CVService.

(** [Math.ceil]: the least integral number not below [x]; a result of
    zero keeps the sign of [x]. *)
Definition Math_ceil (x : number) : number :=
  match x with
  | S754_finite s m e =>
      if 0 <=? e then x
      else
        let n := - ((- cond_Zopp s (Zpos m)) / 2 ^ (- e)) in
        match n with
        | Z0 => S754_zero s
        | _ => ofZ n
        end
  | _ => x
  end.

Fixpoint trimStart (s : jsstring) : jsstring :=
  match s with
  | [] => []
  | c :: s' => if isWhiteSpace c then trimStart s' else s
  end.

(** [String.prototype.trim]: white space and line terminators removed
    from both ends. *)
Definition trim (s : jsstring) : jsstring :=
  rev (trimStart (rev (trimStart s))).

Definition calculateWordCount (text : jsstring) : Z :=
  len (filter (fun word => 0 <? len word) (splitWs text)).

Record Validation : Type := {
  isValid : bool;
  errors : list jsstring
}.

Definition errorEmpty : jsstring := js "CV content cannot be empty".
Definition errorTooShort : jsstring :=
  js "CV content is too short (minimum 100 characters)".
Definition errorTooLong : jsstring :=
  js "CV content is too long (maximum 10,000 characters)".
Definition errorTooFewWords : jsstring :=
  js "CV content has too few words (minimum 50 words)".
Definition errorTooManyWords : jsstring :=
  js "CV content has too many words (maximum 2,000 words)".

(** [!content] on a string: true on the empty string only. *)
Definition falsy (s : jsstring) : bool :=
  match s with
  | [] => true
  | _ => false
  end.

Definition validateCVContent (content : jsstring) : Validation :=
  let errors := [] in
  let errors :=
    if falsy content || (len (trim content) =? 0)
    then errors ++ [errorEmpty] else errors in
  let errors :=
    if len content <? 100 then errors ++ [errorTooShort] else errors in
  let errors :=
    if 10000 <? len content then errors ++ [errorTooLong] else errors in
  let wordCount := calculateWordCount content in
  let errors :=
    if wordCount <? 50 then errors ++ [errorTooFewWords] else errors in
  let errors :=
    if 2000 <? wordCount then errors ++ [errorTooManyWords] else errors in
  {| isValid := len errors =? 0; errors := errors |}.

Record Metadata : Type := {
  wordCount : Z;
  characterCount : Z;
  estimatedReadingTime : number;
  hasContactInfo : bool;
  hasExperience : bool;
  hasEducation : bool;
  hasSkills : bool
}.

Section WithRuntime.

Context {R : StringRuntime}.

Definition extractMetadata (content : jsstring) : Metadata :=
  let text := toLowerCase content in
  let wordCount := calculateWordCount content in
  let characterCount := len content in
  let estimatedReadingTime := Math_ceil (div (ofZ wordCount) (ofZ 200)) in
  {| wordCount := wordCount;
     characterCount := characterCount;
     estimatedReadingTime := estimatedReadingTime;
     hasContactInfo :=
       includes text (js "@") || includes text (js "phone")
       || includes text (js "email");
     hasExperience :=
       includes text (js "experience") || includes text (js "work")
       || includes text (js "employment");
     hasEducation :=
       includes text (js "education") || includes text (js "degree")
       || includes text (js "university");
     hasSkills :=
       includes text (js "skills") || includes text (js "competencies")
       || includes text (js "technologies") |}.

End WithRuntime.

(** [s.replace(/\s+/g, ' ')]: every maximal run of white space becomes
    one space.  [inWs] tells whether the previous code unit belonged to a
    run. *)
Fixpoint collapseFrom (inWs : bool) (s : jsstring) : jsstring :=
  match s with
  | [] => []
  | c :: s' =>
      if isWhiteSpace c then
        if inWs then collapseFrom true s' else 32%N :: collapseFrom true s'
      else c :: collapseFrom false s'
  end.

Definition collapseWs (s : jsstring) : jsstring := collapseFrom false s.

(** [s.replace(/ab/g, by)] for a pattern of two literal code units: the
    matches are taken from the left and do not overlap. *)
Fixpoint replacePair (a b : N) (by_ : jsstring) (s : jsstring) : jsstring :=
  match s with
  | c :: (d :: s'') as s' =>
      if ((c =? a) && (d =? b))%N then by_ ++ replacePair a b by_ s''
      else c :: replacePair a b by_ s'
  | _ => s
  end.

Definition formatCVContent (content : jsstring) : jsstring :=
  let formatted := trim (collapseWs content) in
  let formatted := replacePair 46 32 [46; 10; 10]%N formatted in
  let formatted := replacePair 58 10 [58; 10; 10]%N formatted in
  formatted.

(** The number of words among the pieces of a split, and the word a
    split has begun. *)
Definition pending (cur : jsstring) : nat :=
  match cur with
  | [] => 0
  | _ => 1
  end.

Definition countWords (pieces : list jsstring) : nat :=
  List.length (filter (fun word => 0 <? len word) pieces).

(** The five tests of [validateCVContent]. *)
Definition blank (content : jsstring) : bool := forallb isWhiteSpace content.
Definition tooShort (content : jsstring) : bool := len content <? 100.
Definition tooLong (content : jsstring) : bool := 10000 <? len content.
Definition tooFewWords (content : jsstring) : bool :=
  calculateWordCount content <? 50.
Definition tooManyWords (content : jsstring) : bool :=
  2000 <? calculateWordCount content.

(** Whether the code unit [a] is directly followed by [b] somewhere. *)
Fixpoint hasPair (a b : N) (s : jsstring) : bool :=
  match s with
  | c :: (d :: _) as s' => ((c =? a) && (d =? b))%N || hasPair a b s'
  | _ => false
  end.

(** A text is tight when each of its white space code units is a space
    followed by a code unit that is not white space; it is loose when a
    space may also be the last code unit. *)
Definition followedByWord (atEnd : bool) (s : jsstring) : bool :=
  match s with
  | d :: _ => negb (isWhiteSpace d)
  | [] => atEnd
  end.

Fixpoint spaced (atEnd : bool) (s : jsstring) : bool :=
  match s with
  | [] => true
  | c :: s' =>
      (if isWhiteSpace c then (c =? 32)%N && followedByWord atEnd s'
       else true)
      && spaced atEnd s'
  end.

Definition tight (s : jsstring) : bool := spaced false s.
Definition loose (s : jsstring) : bool := spaced true s.

(** Fifty two-letter words, and a text with the four section markers. *)
Definition fiftyWords : jsstring :=
  List.concat (List.repeat (js "ab ") 50).

Definition sectionsText : jsstring :=
  js "Email: a@b.c Experience: none Education: none Skills: none".

End CVService.

(** ** The API routes

    The three [POST] handlers that forward a request to the backend.  What
    the request body, the environment and the backend yield are inputs of
    the model; a thrown value is an [Error] with its message or something
    else. *)

Module Routes.

Inductive Thrown : Type :=
| ErrorWith (message : jsstring)
| NotAnError.

Abbreviation Task := (sum Thrown).

(** The request body as the handlers read it.  [cv_json] is [None] when
    the field is absent or not truthy (the handler then sends
    [JSON.stringify(body)]); [cv_text] is [None] only when the field is
    [undefined]; a field that is present holds the string
    [URLSearchParams] makes of its value (a [null] is the string null, a
    string is itself). *)
Record RequestBody : Type := {
  cv_json : option jsstring;
  cv_text : option jsstring;
  stringified : jsstring
}.

Section WithJson.

(** The parsed JSON a backend answers with; the handlers pass it on. *)
Variable Json : Type.

Record BackendResponse : Type := {
  backendOk : bool;
  status : Z;
  statusText : jsstring;
  text : Task jsstring;
  backendJson : Task Json;
  arrayBuffer : Task (list N)
}.

Record World : Type := {
  requestJson : Task RequestBody;
  NEXT_PUBLIC_BACKEND_URL : option jsstring;
  fetch : jsstring -> jsstring -> Task BackendResponse
}.

Inductive Payload : Type :=
| Passed (data : Json)
| OfflineMock
| Pdf (bytes : list N)
| Failure (error : jsstring) (details : option jsstring).

Record NextResponse : Type := {
  responseStatus : Z;
  payload : Payload
}.

(** [`${n}`] for an integer. *)
Definition numberToString (z : Z) : jsstring :=
  js (NilZero.string_of_int (Z.to_int z)).

(** [x || d] on an optional string: the empty string is not truthy. *)
Definition orString (x : option jsstring) (d : jsstring) : jsstring :=
  match x with
  | Some (_ :: _ as s) => s
  | _ => d
  end.

(** The value [URLSearchParams] sends for a field that may be
    [undefined]. *)
Definition formValue (x : option jsstring) : jsstring :=
  match x with
  | Some s => s
  | None => js "undefined"
  end.

Definition backendUrl (w : World) (path : string) : jsstring :=
  orString (NEXT_PUBLIC_BACKEND_URL w)
           (js "https://f4b626e1610f.ngrok-free.app") ++ js path.

Definition requestFailed (response : BackendResponse) : Thrown :=
  ErrorWith (js "Backend request failed: "
             ++ numberToString (status response) ++ js " "
             ++ statusText response).

Definition messageOf (error : Thrown) : jsstring :=
  match error with
  | ErrorWith message => message
  | NotAnError => js "Unknown error"
  end.

Local Open Scope monad_scope.

Definition previewPOST (w : World) : Task NextResponse :=
  catch
    (body <- requestJson w ;;
     let backendBody := orString (cv_json body) (stringified body) in
     response <- fetch w (backendUrl w "/preview-cv-json") backendBody ;;
     if negb (backendOk response) then
       errorText <- text response ;;
       if (status response =? 404)
          && includes errorText (js "ERR_NGROK_3200")
       then ret {| responseStatus := 200; payload := OfflineMock |}
       else raise (requestFailed response)
     else
       data <- backendJson response ;;
       ret {| responseStatus := 200; payload := Passed data |})
    (fun error =>
       ret {| responseStatus := 500;
              payload := Failure (js "Failed to generate preview")
                                 (Some (messageOf error)) |}).

Definition generatePOST (w : World) : Task NextResponse :=
  catch
    (body <- requestJson w ;;
     let backendBody := formValue (cv_text body) in
     response <- fetch w (backendUrl w "/generate-cv-json") backendBody ;;
     if negb (backendOk response) then
       errorText <- text response ;;
       raise (requestFailed response)
     else
       data <- backendJson response ;;
       ret {| responseStatus := 200; payload := Passed data |})
    (fun error =>
       ret {| responseStatus := 500;
              payload := Failure (js "Failed to generate CV JSON")
                                 (Some (messageOf error)) |}).

Definition downloadPOST (w : World) : Task NextResponse :=
  catch
    (body <- requestJson w ;;
     let backendBody := formValue (cv_text body) in
     response <- fetch w (backendUrl w "/download-cv-pdf") backendBody ;;
     if negb (backendOk response) then
       errorText <- text response ;;
       raise (requestFailed response)
     else
       pdfBuffer <- arrayBuffer response ;;
       ret {| responseStatus := 200; payload := Pdf pdfBuffer |})
    (fun error =>
       ret {| responseStatus := 500;
              payload := Failure (js "Failed to download PDF") None |}).

End WithJson.

Arguments Passed {Json} _.
Arguments OfflineMock {Json}.
Arguments Pdf {Json} _.
Arguments Failure {Json} _ _.

End Routes.

(** A backend that answers 503 with a short text, behind the default
    URL. *)
Definition unavailableBackend : Routes.World unit :=
  {| Routes.requestJson :=
       inr {| Routes.cv_json := Some (js "{}");
              Routes.cv_text := None;
              Routes.stringified := js "{}" |};
     Routes.NEXT_PUBLIC_BACKEND_URL := None;
     Routes.fetch := fun _ _ =>
       inr {| Routes.backendOk := false;
              Routes.status := 503;
              Routes.statusText := js "Service Unavailable";
              Routes.text := inr (js "try later");
              Routes.backendJson := inl Routes.NotAnError;
              Routes.arrayBuffer := inl Routes.NotAnError |} |}.

(** ** Generic facts *)

Ltac split_andb :=
  repeat match goal with
         | H : (_ && _) = true |- _ =>
             apply andb_true_iff in H; destruct H
         end.

Ltac by_hyp :=
  match goal with
  | H : ?x = true |- ?x = true => exact H
  end.

(** The literals and the rounding on known values. *)
Example lit_0_4_bits : lit_0_4 = S754_finite false 7205759403792794 (-54).
Proof. reflexivity. Qed.

Example lit_0_3_bits : lit_0_3 = S754_finite false 5404319552844595 (-54).
Proof. reflexivity. Qed.

Example Math_round_half_up :
  Math_round (div (ofZ 39) (ofZ 2)) = ofZ 20
  /\ Math_round (div (ofZ 5) (ofZ 2)) = ofZ 3
  /\ Math_round (div (ofZ (-5)) (ofZ 2)) = ofZ (-2)
  /\ Math_round (div (ofZ (-1)) (ofZ 2)) = S754_zero true
  /\ Math_round (div (ofZ 1) (ofZ 3)) = S754_zero false.
Proof. repeat split. Qed.

Example splitWs_pieces :
  splitWs (js " a  b ") = [js ""; js "a"; js "b"; js ""]
  /\ splitWs (js "") = [js ""].
Proof. split; reflexivity. Qed.

Example includes_examples :
  includes (js "rest api") (js "api") = true
  /\ includes (js "rest api") (js "") = true
  /\ includes (js "rest api") (js "apis") = false.
Proof. repeat split. Qed.

Lemma forallBool_spec (P : bool -> bool) :
  forallBool P = true -> forall b, P b = true.
Proof.
  unfold forallBool. intros H b.
  apply andb_true_iff in H. destruct H as [Ht Hf].
  destruct b; assumption.
Qed.

Lemma forallUpTo_spec (k : nat) (P : nat -> bool) :
  forallUpTo k P = true -> forall n, (n <= k)%nat -> P n = true.
Proof.
  unfold forallUpTo. intros H n Hn.
  rewrite forallb_forall in H. apply H.
  apply in_seq. lia.
Qed.

Lemma sameNumber_eq (x y : number) : sameNumber x y = true -> x = y.
Proof.
  destruct x as [a|a| |a m e], y as [b|b| |b n f]; simpl; try discriminate.
  - intros H. apply eqb_prop in H. now subst.
  - intros H. apply eqb_prop in H. now subst.
  - reflexivity.
  - intros H. apply andb_true_iff in H. destruct H as [H He].
    apply andb_true_iff in H. destruct H as [Hs Hm].
    apply eqb_prop in Hs. apply Pos.eqb_eq in Hm. apply Z.eqb_eq in He.
    now subst.
Qed.

Lemma clamp_unfold (x : number) :
  clamp x = Math_max (ofZ 0) (Math_min (ofZ 100) x).
Proof. reflexivity. Qed.

Lemma inRange_spec (lo hi : Z) (x : number) :
  inRange lo hi x = true -> le (ofZ lo) x = true /\ le x (ofZ hi) = true.
Proof. unfold inRange. intros H. apply andb_true_iff in H. exact H. Qed.

Lemma filter_length_bound {A : Type} (p : A -> bool) (l : list A) :
  (List.length (filter p l) <= List.length l)%nat.
Proof.
  induction l as [|x l IH]; simpl; [lia|].
  destruct (p x); simpl; lia.
Qed.

Lemma filter_length_mono {A : Type} (p q : A -> bool) (l : list A) :
  (forall x, In x l -> p x = true -> q x = true) ->
  (List.length (filter p l) <= List.length (filter q l))%nat.
Proof.
  induction l as [|x l IH]; intros H; simpl; [lia|].
  assert (IH' : (List.length (filter p l) <= List.length (filter q l))%nat).
  { apply IH. intros y Hy. apply H. now right. }
  destruct (p x) eqn:Hp.
  - rewrite (H x (or_introl eq_refl) Hp). simpl. lia.
  - destruct (q x); simpl; lia.
Qed.

Lemma strictEq_spec (a b : jsstring) : strictEq a b = true <-> a = b.
Proof.
  revert b. induction a as [|c a IH]; intros [|d b]; simpl;
    try (split; [discriminate | discriminate]); [tauto|].
  rewrite andb_true_iff, N.eqb_eq, IH. split.
  - intros [-> ->]. reflexivity.
  - intros H. injection H as -> ->. split; reflexivity.
Qed.

Lemma arrayIncludes_spec (l : list jsstring) (k : jsstring) :
  arrayIncludes l k = true <-> In k l.
Proof.
  unfold arrayIncludes. rewrite existsb_exists. split.
  - intros (x & Hx & Heq). apply strictEq_spec in Heq. now subst.
  - intros H. exists k. split; [exact H | now apply strictEq_spec].
Qed.

Lemma arrayIncludes_filter (p : jsstring -> bool) (l : list jsstring)
  (k : jsstring) :
  In k l -> arrayIncludes (filter p l) k = p k.
Proof.
  intros Hk. destruct (p k) eqn:Hp.
  - apply arrayIncludes_spec, filter_In. now split.
  - destruct (arrayIncludes (filter p l) k) eqn:Ha; [|reflexivity].
    apply arrayIncludes_spec, filter_In in Ha. destruct Ha as [_ Ha].
    congruence.
Qed.

Lemma In_slice0 {A : Type} (n : nat) (l : list A) (x : A) :
  In x (slice0 n l) -> In x l.
Proof.
  unfold slice0. intros H. rewrite <- (firstn_skipn n l).
  apply in_or_app. now left.
Qed.

(** Comparison of numbers is antisymmetric, whatever the operands. *)
Lemma SFcompare_antisym (a b : number) :
  SFcompare b a = option_map CompOpp (SFcompare a b).
Proof.
  destruct a as [[|]|[|]| |[|] m e], b as [[|]|[|]| |[|] n f];
    try reflexivity; unfold SFcompare, option_map; f_equal;
    rewrite (Z.compare_antisym e f); destruct (e ?= f); cbn [CompOpp];
    try reflexivity; rewrite ?CompOpp_involutive;
    first [ exact (Pos.compare_cont_antisym _ _ Eq)
          | symmetry; exact (Pos.compare_cont_antisym _ _ Eq) ].
Qed.

Lemma le_not_lt (a b : number) : le a b = true -> lt b a = false.
Proof.
  unfold le, lt, SFleb, SFltb. rewrite (SFcompare_antisym a b).
  destruct (SFcompare a b) as [[| |]|]; simpl; congruence.
Qed.

Lemma le_80_le_60 (s : number) :
  le (ofZ 80) s = true -> le (ofZ 60) s = true.
Proof.
  change (ofZ 80) with (S754_finite false 5629499534213120 (-46)).
  change (ofZ 60) with (S754_finite false 8444249301319680 (-47)).
  destruct s as [[|]|[|]| |[|] m e]; try (intros H; exact H).
  unfold le, SFleb, SFcompare.
  destruct (Z.compare_spec (-46) e) as [He|He|He];
    destruct (Z.compare_spec (-47) e) as [Hf|Hf|Hf];
    try congruence; lia.
Qed.

(** ** The local scorer and its locals *)

Section LocalFacts.

Context {R : StringRuntime}.

Lemma calculateLocalATSScore_locals (cvText : jsstring) :
  calculateLocalATSScore cvText =
  {| score := clamp (totalScore cvText);
     suggestions := generateSuggestions (totalScore cvText);
     keywords := foundKeywords cvText;
     missingKeywords :=
       slice0 5 (filter (fun k => negb (arrayIncludes (foundKeywords cvText) k))
                        commonKeywords);
     breakdown :=
       Some {| keywordMatch := Math_round (keywordScore cvText);
               formatting := Math_round (formattingScore cvText);
               structure := Math_round (structureScore cvText);
               contentQuality := ofZ 75 |} |}.
Proof.
  cbv delta [calculateLocalATSScore totalScore clamp keywordScore
             formattingScore structureScore totalScoreOf keywordScoreOf
             formattingScoreOf structureScoreOf foundKeywords wordCount];
    cbv beta zeta.
  change (len commonKeywords) with 22.
  unfold len. reflexivity.
Qed.

Lemma foundKeywords_bound (cvText : jsstring) :
  (List.length (foundKeywords cvText) <= 22)%nat.
Proof.
  unfold foundKeywords.
  etransitivity; [apply filter_length_bound | reflexivity].
Qed.

Lemma wordCount_exclusive (cvText : jsstring) :
  (2000 <? wordCount cvText) && (wordCount cvText <? 200) = false.
Proof.
  destruct (Z.ltb_spec 2000 (wordCount cvText));
    destruct (Z.ltb_spec (wordCount cvText) 200); simpl; try reflexivity; lia.
Qed.

End LocalFacts.

(** ** The score tables, checked *)

Lemma keywordTable (n : nat) : (n <= 22)%nat -> keywordCheck n = true.
Proof.
  apply (forallUpTo_spec 22 keywordCheck). vm_compute. reflexivity.
Qed.

Lemma formattingTable (layout long short : bool) :
  formattingCheck layout long short = true.
Proof. destruct layout, long, short; vm_compute; reflexivity. Qed.

Lemma structureTable (c e d s : bool) : structureCheck c e d s = true.
Proof. destruct c, e, d, s; vm_compute; reflexivity. Qed.

Lemma totalTable (n : nat) (layout long short c e d s : bool) :
  (n <= 22)%nat -> totalCheck n layout long short c e d s = true.
Proof.
  intros Hn.
  assert (H : forallUpTo 22 (fun n =>
            forallBool (fun layout => forallBool (fun long =>
            forallBool (fun short => forallBool (fun c =>
            forallBool (fun e => forallBool (fun d => forallBool (fun s =>
              totalCheck n layout long short c e d s)))))))) = true)
    by (vm_compute; reflexivity).
  pose proof (forallUpTo_spec _ _ H n Hn) as H1. cbv beta in H1.
  pose proof (forallBool_spec _ H1 layout) as H2. cbv beta in H2.
  pose proof (forallBool_spec _ H2 long) as H3. cbv beta in H3.
  pose proof (forallBool_spec _ H3 short) as H4. cbv beta in H4.
  pose proof (forallBool_spec _ H4 c) as H5. cbv beta in H5.
  pose proof (forallBool_spec _ H5 e) as H6. cbv beta in H6.
  pose proof (forallBool_spec _ H6 d) as H7. cbv beta in H7.
  exact (forallBool_spec _ H7 s).
Qed.

Lemma totalTable_facts (n : nat) (layout long short c e d s : bool)
  (t : number) :
  t = totalScoreOf (keywordScoreOf n) (formattingScoreOf layout long short)
                   (structureScoreOf c e d s) ->
  (n <= 22)%nat ->
  inRange 0 100 (clamp t) = true
  /\ isInteger (clamp t) = true
  /\ (long && short = false ->
      le (ofZ 20) t = true /\ clamp t = t /\ Math_min (ofZ 100) t = t).
Proof.
  intros -> Hn.
  pose proof (totalTable n layout long short c e d s Hn) as H.
  unfold totalCheck in H. cbv zeta in H. split_andb.
  split; [by_hyp|]. split; [by_hyp|].
  intros Hx. unfold exclusive in *.
  match goal with
  | H : implb _ _ = true |- _ => rewrite Hx in H; cbn [negb implb] in H
  end.
  split_andb.
  split; [by_hyp|]. split; apply sameNumber_eq; by_hyp.
Qed.

Lemma keywordTable_facts (n : nat) :
  (n <= 22)%nat ->
  inRange 0 100 (keywordScoreOf n) = true
  /\ clamp (keywordScoreOf n) = keywordScoreOf n
  /\ inRange 0 100 (Math_round (keywordScoreOf n)) = true.
Proof.
  intros Hn. pose proof (keywordTable n Hn) as H.
  unfold keywordCheck in H. cbv zeta in H. split_andb.
  split; [by_hyp|]. split; [apply sameNumber_eq; by_hyp | by_hyp].
Qed.

Lemma formattingTable_facts (layout long short : bool) :
  inRange 0 100 (formattingScoreOf layout long short) = true
  /\ clamp (formattingScoreOf layout long short)
     = formattingScoreOf layout long short
  /\ Math_round (formattingScoreOf layout long short)
     = formattingScoreOf layout long short
  /\ (long && short = false ->
      le (ofZ 50) (formattingScoreOf layout long short) = true).
Proof.
  pose proof (formattingTable layout long short) as H.
  unfold formattingCheck in H. cbv zeta in H. split_andb.
  split; [by_hyp|]. split; [apply sameNumber_eq; by_hyp|].
  split; [apply sameNumber_eq; by_hyp|].
  intros Hx. unfold exclusive in *.
  match goal with
  | H : implb _ _ = true |- _ => rewrite Hx in H; cbn [negb implb] in H
  end.
  by_hyp.
Qed.

Lemma structureTable_facts (c e d s : bool) :
  inRange 15 100 (structureScoreOf c e d s) = true
  /\ clamp (structureScoreOf c e d s) = structureScoreOf c e d s
  /\ Math_round (structureScoreOf c e d s) = structureScoreOf c e d s.
Proof.
  pose proof (structureTable c e d s) as H.
  unfold structureCheck in H. cbv zeta in H. split_andb.
  split; [by_hyp|]. split; apply sameNumber_eq; by_hyp.
Qed.

Section LocalScorer.

Context {R : StringRuntime}.

Lemma totalScore_eq (cvText : jsstring) :
  totalScore cvText =
  totalScoreOf (keywordScoreOf (List.length (foundKeywords cvText)))
    (formattingScoreOf
    (includes (toLowerCase cvText) (js "table")
     || includes (toLowerCase cvText) (js "image"))
    (2000 <? wordCount cvText) (wordCount cvText <? 200))
    (structureScoreOf 
    (negb (includes (toLowerCase cvText) (js "email"))
     && negb (includes (toLowerCase cvText) (js "@")))
    (negb (includes (toLowerCase cvText) (js "experience")))
    (negb (includes (toLowerCase cvText) (js "education")))
    (negb (includes (toLowerCase cvText) (js "skills")))).
Proof. reflexivity. Qed.

Lemma totalScore_table (cvText : jsstring) :
  inRange 0 100 (clamp (totalScore cvText)) = true
  /\ isInteger (clamp (totalScore cvText)) = true
  /\ le (ofZ 20) (totalScore cvText) = true
  /\ clamp (totalScore cvText) = totalScore cvText
  /\ Math_min (ofZ 100) (totalScore cvText) = totalScore cvText.
Proof.
  rewrite totalScore_eq.
  match goal with
  | |- context [totalScoreOf (keywordScoreOf ?n)
                  (formattingScoreOf ?a ?b ?c)
                  (structureScoreOf ?d ?e ?f ?g)] =>
      pose proof (totalTable_facts n a b c d e f g _ eq_refl
                    (foundKeywords_bound cvText)) as (H1 & H2 & H3)
  end.
  destruct (H3 (wordCount_exclusive cvText)) as (H4 & H5 & H6).
  split; [exact H1|]. split; [exact H2|]. split; [exact H4|].
  split; [exact H5 | exact H6].
Qed.

Lemma local_score (cvText : jsstring) :
  score (calculateLocalATSScore cvText) = clamp (totalScore cvText).
Proof. rewrite calculateLocalATSScore_locals. reflexivity. Qed.

Lemma local_suggestions (cvText : jsstring) :
  suggestions (calculateLocalATSScore cvText)
  = generateSuggestions (totalScore cvText).
Proof. rewrite calculateLocalATSScore_locals. reflexivity. Qed.

Lemma local_keywords (cvText : jsstring) :
  keywords (calculateLocalATSScore cvText) = foundKeywords cvText.
Proof. rewrite calculateLocalATSScore_locals. reflexivity. Qed.

Lemma local_missingKeywords (cvText : jsstring) :
  missingKeywords (calculateLocalATSScore cvText)
  = slice0 5 (filter (fun k => negb (arrayIncludes (foundKeywords cvText) k))
                     commonKeywords).
Proof. rewrite calculateLocalATSScore_locals. reflexivity. Qed.

Lemma local_breakdown (cvText : jsstring) :
  breakdown (calculateLocalATSScore cvText)
  = Some {| keywordMatch := Math_round (keywordScore cvText);
            formatting := Math_round (formattingScore cvText);
            structure := Math_round (structureScore cvText);
            contentQuality := ofZ 75 |}.
Proof. rewrite calculateLocalATSScore_locals. reflexivity. Qed.

(** C1: for every input text the score returned by the local heuristic
    scorer lies between 0 and 100. *)
Theorem local_score_in_range (cvText : jsstring) :
  le (ofZ 0) (score (calculateLocalATSScore cvText)) = true
  /\ le (score (calculateLocalATSScore cvText)) (ofZ 100) = true.
Proof.
  rewrite local_score.
  destruct (totalScore_table cvText) as [H _].
  apply inRange_spec. exact H.
Qed.

Lemma keywordScore_eq (cvText : jsstring) :
  keywordScore cvText = keywordScoreOf (List.length (foundKeywords cvText)).
Proof. reflexivity. Qed.

Lemma formattingScore_eq (cvText : jsstring) :
  formattingScore cvText =
  formattingScoreOf
    (includes (toLowerCase cvText) (js "table")
     || includes (toLowerCase cvText) (js "image"))
    (2000 <? wordCount cvText) (wordCount cvText <? 200).
Proof. reflexivity. Qed.

Lemma structureScore_eq (cvText : jsstring) :
  structureScore cvText =
  structureScoreOf
    (negb (includes (toLowerCase cvText) (js "email"))
     && negb (includes (toLowerCase cvText) (js "@")))
    (negb (includes (toLowerCase cvText) (js "experience")))
    (negb (includes (toLowerCase cvText) (js "education")))
    (negb (includes (toLowerCase cvText) (js "skills"))).
Proof. reflexivity. Qed.

Lemma toLowerCase_nil : toLowerCase [] = [].
Proof. rewrite toLowerCase_ascii; [reflexivity | constructor]. Qed.

Lemma calculateLocalATSScore_nil :
  calculateLocalATSScore [] =
  {| score := ofZ 30;
     suggestions := correctiveSuggestions;
     keywords := [];
     missingKeywords :=
       List.map js ["python"; "javascript"; "react"; "node.js"; "sql"]%string;
     breakdown :=
       Some {| keywordMatch := ofZ 0;
               formatting := ofZ 85;
               structure := ofZ 15;
               contentQuality := ofZ 75 |} |}.
Proof.
  unfold calculateLocalATSScore. rewrite toLowerCase_nil.
  vm_compute. reflexivity.
Qed.

(** C4: on the empty string the local heuristic scorer gives keywordMatch
    0, formatting 85 (of the formatting penalties only the one for fewer
    than 200 words fires), structure 15 (all four section penalties fire)
    and the aggregate round(0.4*0 + 0.3*85 + 0.3*15) = 30. *)
Theorem empty_text_scores :
  breakdown (calculateLocalATSScore []) =
    Some {| keywordMatch := ofZ 0; formatting := ofZ 85;
            structure := ofZ 15; contentQuality := ofZ 75 |}
  /\ formattingScore [] = formattingScoreOf false false true
  /\ structureScore [] = structureScoreOf true true true true
  /\ score (calculateLocalATSScore []) = ofZ 30
  /\ Math_round (add (add (mul (ofZ 0) lit_0_4) (mul (ofZ 85) lit_0_3))
                     (mul (ofZ 15) lit_0_3)) = ofZ 30.
Proof.
  rewrite calculateLocalATSScore_nil.
  rewrite formattingScore_eq, structureScore_eq.
  unfold wordCount. rewrite toLowerCase_nil.
  repeat split; vm_compute; reflexivity.
Qed.

(** C6: for every input text the four sub-scores of the breakdown lie
    between 0 and 100, and each of the sub-scores that enter the weighted
    sum is left unchanged by clamping to that range. *)
Theorem breakdown_in_range (cvText : jsstring) :
  exists b,
    breakdown (calculateLocalATSScore cvText) = Some b
    /\ inRange 0 100 (keywordMatch b) = true
    /\ inRange 0 100 (formatting b) = true
    /\ inRange 0 100 (structure b) = true
    /\ inRange 0 100 (contentQuality b) = true
    /\ clamp (keywordScore cvText) = keywordScore cvText
    /\ clamp (formattingScore cvText) = formattingScore cvText
    /\ clamp (structureScore cvText) = structureScore cvText.
Proof.
  eexists. split; [apply local_breakdown|].
  cbn [keywordMatch formatting structure contentQuality].
  rewrite keywordScore_eq, formattingScore_eq, structureScore_eq.
  destruct (keywordTable_facts _ (foundKeywords_bound cvText))
    as (K1 & K2 & K3).
  match goal with
  | |- context [formattingScoreOf ?a ?b ?c] =>
      destruct (formattingTable_facts a b c) as (F1 & F2 & F3 & _)
  end.
  match goal with
  | |- context [structureScoreOf ?a ?b ?c ?d] =>
      destruct (structureTable_facts a b c d) as (S1 & S2 & S3)
  end.
  rewrite F3, S3.
  split; [exact K3|]. split; [exact F1|].
  split; [|split; [vm_compute; reflexivity|]].
  - apply inRange_spec in S1. destruct S1 as [S1 S1'].
    unfold inRange. rewrite S1'. rewrite andb_true_r.
    revert S1. generalize (structureScoreOf
      (negb (includes (toLowerCase cvText) (js "email"))
       && negb (includes (toLowerCase cvText) (js "@")))
      (negb (includes (toLowerCase cvText) (js "experience")))
      (negb (includes (toLowerCase cvText) (js "education")))
      (negb (includes (toLowerCase cvText) (js "skills")))).
    intros x. destruct x as [[|]|[|]| |[|] m e]; vm_compute; congruence.
  - split; [exact K2|]. split; [exact F2 | exact S2].
Qed.

(** C10: for every input text the unclamped weighted total is at least 20
    (formatting at least 50, since the two word-count penalties exclude
    each other, and structure at least 15); so the lower clamp is never
    active, the returned score is the total itself and is at least 20, and
    the suggestions are those of the returned score. *)
Theorem total_at_least_20 (cvText : jsstring) :
  le (ofZ 20) (totalScore cvText) = true
  /\ le (ofZ 50) (formattingScore cvText) = true
  /\ le (ofZ 15) (structureScore cvText) = true
  /\ Math_max (ofZ 0) (Math_min (ofZ 100) (totalScore cvText))
     = Math_min (ofZ 100) (totalScore cvText)
  /\ score (calculateLocalATSScore cvText) = totalScore cvText
  /\ le (ofZ 20) (score (calculateLocalATSScore cvText)) = true
  /\ suggestions (calculateLocalATSScore cvText)
     = generateSuggestions (score (calculateLocalATSScore cvText)).
Proof.
  rewrite local_score, local_suggestions.
  destruct (totalScore_table cvText) as (_ & _ & T1 & T2 & T3).
  rewrite <- (clamp_unfold (totalScore cvText)). rewrite T2, T3.
  rewrite formattingScore_eq, structureScore_eq.
  destruct (formattingTable_facts
    (includes (toLowerCase cvText) (js "table")
     || includes (toLowerCase cvText) (js "image"))
    (2000 <? wordCount cvText) (wordCount cvText <? 200))
    as (_ & _ & _ & F).
  match goal with
  | |- context [structureScoreOf ?a ?b ?c ?d] =>
      destruct (structureTable_facts a b c d) as (S1 & _ & _)
  end.
  apply inRange_spec in S1. destruct S1 as [S1 _].
  split; [exact T1|]. split; [exact (F (wordCount_exclusive cvText))|].
  split; [exact S1|]. repeat split. exact T1.
Qed.

(** C5: for every input text, [keywords] are exactly the catalog terms
    contained in the lower-cased text, in catalog order; [missingKeywords]
    are the first five catalog terms not contained in it, in catalog order,
    hence at most five; and the two lists are disjoint. *)
Theorem keywords_partition (cvText : jsstring) :
  keywords (calculateLocalATSScore cvText)
  = filter (fun k => includes (toLowerCase cvText) k) commonKeywords
  /\ missingKeywords (calculateLocalATSScore cvText)
     = firstn 5 (filter (fun k => negb (includes (toLowerCase cvText) k))
                        commonKeywords)
  /\ (List.length (missingKeywords (calculateLocalATSScore cvText)) <= 5)%nat
  /\ (forall k, In k (keywords (calculateLocalATSScore cvText)) ->
                ~ In k (missingKeywords (calculateLocalATSScore cvText))).
Proof.
  rewrite local_keywords, local_missingKeywords.
  split; [reflexivity|]. split; [|split].
  - unfold slice0, foundKeywords. f_equal. apply filter_ext_in.
    intros k Hk. f_equal.
    apply (arrayIncludes_filter
             (fun k => includes (toLowerCase cvText) k) _ _ Hk).
  - unfold slice0. apply firstn_le_length.
  - intros k Hfound Hmissing. apply In_slice0, filter_In in Hmissing.
    destruct Hmissing as [_ Hmissing].
    apply arrayIncludes_spec in Hfound. rewrite Hfound in Hmissing.
    discriminate.
Qed.

End LocalScorer.

(** The scorer run on the small resume, under the Basic Latin runtime:
    three catalog terms, the short-text penalty, two missing sections. *)
Lemma local_score_in_range_witness :
  score (calculateLocalATSScore (R := latinRuntime) sampleResume) = ofZ 49
  /\ le (ofZ 0) (score (calculateLocalATSScore (R := latinRuntime)
                          sampleResume)) = true
  /\ le (score (calculateLocalATSScore (R := latinRuntime) sampleResume))
        (ofZ 100) = true.
Proof.
  split; [vm_compute; reflexivity|].
  exact (local_score_in_range (R := latinRuntime) sampleResume).
Defined.

Lemma empty_text_scores_witness :
  score (calculateLocalATSScore (R := latinRuntime) []) = ofZ 30.
Proof.
  exact (proj1 (proj2 (proj2 (proj2
           (empty_text_scores (R := latinRuntime)))))).
Defined.

Lemma breakdown_in_range_witness :
  exists b,
    breakdown (calculateLocalATSScore (R := latinRuntime) sampleResume)
    = Some b
    /\ inRange 0 100 (keywordMatch b) = true
    /\ inRange 0 100 (formatting b) = true
    /\ inRange 0 100 (structure b) = true
    /\ inRange 0 100 (contentQuality b) = true.
Proof.
  destruct (breakdown_in_range (R := latinRuntime) sampleResume)
    as (b & H1 & H2 & H3 & H4 & H5 & _).
  exists b. repeat split; assumption.
Defined.

Lemma total_at_least_20_witness :
  le (ofZ 20) (score (calculateLocalATSScore (R := latinRuntime)
                        sampleResume)) = true
  /\ suggestions (calculateLocalATSScore (R := latinRuntime) sampleResume)
     = correctiveSuggestions.
Proof.
  destruct (total_at_least_20 (R := latinRuntime) sampleResume)
    as (_ & _ & _ & _ & _ & H & _).
  split; [exact H | vm_compute; reflexivity].
Defined.

Lemma keywords_partition_witness :
  In (js "sql")
     (keywords (calculateLocalATSScore (R := latinRuntime)
                  (js "Python and SQL")))
  /\ ~ In (js "sql")
        (missingKeywords (calculateLocalATSScore (R := latinRuntime)
                            (js "Python and SQL"))).
Proof.
  assert (H : In (js "sql")
                (keywords (calculateLocalATSScore (R := latinRuntime)
                             (js "Python and SQL"))))
    by (vm_compute; tauto).
  split; [exact H|].
  apply (proj2 (proj2 (proj2
           (keywords_partition (R := latinRuntime) (js "Python and SQL"))))).
  exact H.
Defined.

(** ** The suggestion generator *)

(** C7: the suggestions depend only on the band of the score: the three
    corrective ones below 60, the three refinement ones from 60 up to (not
    including) 80, the two affirming ones from 80 on. *)
Theorem suggestions_banded (s : number) :
  (lt s (ofZ 60) = true -> generateSuggestions s = correctiveSuggestions)
  /\ (le (ofZ 60) s = true -> lt s (ofZ 80) = true ->
      generateSuggestions s = refinementSuggestions)
  /\ (le (ofZ 80) s = true -> generateSuggestions s = affirmingSuggestions)
  /\ List.length correctiveSuggestions = 3%nat
  /\ List.length refinementSuggestions = 3%nat
  /\ List.length affirmingSuggestions = 2%nat.
Proof.
  unfold generateSuggestions. split; [|split; [|split]].
  - intros H. rewrite H. reflexivity.
  - intros H60 H80. rewrite (le_not_lt _ _ H60), H80. reflexivity.
  - intros H80.
    rewrite (le_not_lt _ _ (le_80_le_60 _ H80)), (le_not_lt _ _ H80).
    reflexivity.
  - repeat split.
Qed.

Lemma suggestions_banded_witness :
  generateSuggestions (ofZ 42) = correctiveSuggestions
  /\ generateSuggestions (ofZ 60) = refinementSuggestions
  /\ generateSuggestions (ofZ 80) = affirmingSuggestions.
Proof.
  split; [|split].
  - apply (proj1 (suggestions_banded (ofZ 42))). reflexivity.
  - apply (proj1 (proj2 (suggestions_banded (ofZ 60)))); reflexivity.
  - apply (proj1 (proj2 (proj2 (suggestions_banded (ofZ 80))))).
    reflexivity.
Defined.

(** ** Appending catalog keywords *)

Lemma allAscii_spec (s : jsstring) : allAscii s = true -> Forall isAscii s.
Proof.
  unfold allAscii. rewrite forallb_forall, Forall_forall.
  intros H c Hc. apply N.ltb_lt, H, Hc.
Qed.

Lemma commonKeywords_ascii (k : jsstring) :
  In k commonKeywords -> Forall isAscii k.
Proof.
  assert (H : forallb allAscii commonKeywords = true)
    by (vm_compute; reflexivity).
  rewrite forallb_forall in H. intros Hk. apply allAscii_spec, H, Hk.
Qed.

Lemma keywordSuffix_ascii (s : jsstring) :
  keywordSuffix s -> Forall isAscii s.
Proof.
  induction 1 as [|k s Hk _ IH|s _ IH].
  - constructor.
  - apply Forall_app. split; [now apply commonKeywords_ascii | exact IH].
  - constructor; [reflexivity | exact IH].
Qed.

Lemma sigmaEq_ascii (a c : N) : sigmaEq a c -> isAscii c -> a = c.
Proof.
  unfold sigmaEq, isSigma, isAscii. intros [H|[_ H]] Hc; [exact H | lia].
Qed.

Lemma startsWith_sigma (k u v : jsstring) :
  Forall2 sigmaEq u v -> Forall isAscii k ->
  startsWith v k = true -> startsWith u k = true.
Proof.
  revert u v. induction k as [|c k IH]; intros u v Huv Hk; [reflexivity|].
  inversion Hk as [|? ? Hc Hk']; subst.
  destruct Huv as [|a d u v Had Huv]; simpl; [trivial|].
  rewrite !andb_true_iff, !N.eqb_eq. intros [-> Hs].
  split; [symmetry; now apply sigmaEq_ascii | now apply (IH u v)].
Qed.

Lemma includes_sigma (k u v : jsstring) :
  Forall2 sigmaEq u v -> Forall isAscii k ->
  includes v k = true -> includes u k = true.
Proof.
  intros Huv Hk. induction Huv as [|a d u v Had Huv IH]; [trivial|].
  cbn [includes]. rewrite !orb_true_iff. intros [H|H].
  - left. apply (startsWith_sigma k (a :: u) (d :: v)); trivial.
    now constructor.
  - right. now apply IH.
Qed.

Lemma startsWith_app (u w k : jsstring) :
  startsWith u k = true -> startsWith (u ++ w) k = true.
Proof.
  revert u. induction k as [|c k IH]; intros [|d u]; simpl; trivial;
    [discriminate|].
  rewrite !andb_true_iff. intros [Hc Hs]. split; [exact Hc | now apply IH].
Qed.

Lemma includes_app (u w k : jsstring) :
  includes u k = true -> includes (u ++ w) k = true.
Proof.
  induction u as [|d u IH].
  - destruct k as [|c k]; [|discriminate]. intros _.
    destruct w; reflexivity.
  - change ((d :: u) ++ w) with (d :: (u ++ w)). cbn [includes].
    rewrite !orb_true_iff. intros [H|H].
    + left. now apply (startsWith_app (d :: u) w k).
    + right. now apply IH.
Qed.

Lemma keywordScore_monotone (n m : nat) :
  (n <= m)%nat -> (m <= 22)%nat ->
  le (Math_round (keywordScoreOf n)) (Math_round (keywordScoreOf m)) = true.
Proof.
  intros Hnm Hm.
  assert (H : forallUpTo 22 (fun m => forallUpTo m (fun n =>
            le (Math_round (keywordScoreOf n))
               (Math_round (keywordScoreOf m)))) = true)
    by (vm_compute; reflexivity).
  pose proof (forallUpTo_spec _ _ H m Hm) as H1. cbv beta in H1.
  exact (forallUpTo_spec _ _ H1 n Hnm).
Qed.

Section Monotonicity.

Context {R : StringRuntime}.

Lemma includes_suffix (t s k : jsstring) :
  Forall isAscii s -> Forall isAscii k ->
  includes (toLowerCase t) k = true ->
  includes (toLowerCase (t ++ s)) k = true.
Proof.
  intros Hs Hk H.
  destruct (toLowerCase_app_ascii t s Hs) as (u & -> & Hu).
  apply includes_app. now apply (includes_sigma k u (toLowerCase t)).
Qed.

(** C8: appending catalog keywords to a text never lowers the keywordMatch
    sub-score, and every catalog term matched before is still matched. *)
Theorem keywordMatch_monotone (t s : jsstring) :
  keywordSuffix s ->
  (forall k, In k (keywords (calculateLocalATSScore t)) ->
             In k (keywords (calculateLocalATSScore (t ++ s))))
  /\ exists bt bs,
       breakdown (calculateLocalATSScore t) = Some bt
       /\ breakdown (calculateLocalATSScore (t ++ s)) = Some bs
       /\ le (keywordMatch bt) (keywordMatch bs) = true.
Proof.
  intros Hs. apply keywordSuffix_ascii in Hs.
  assert (Hgrow : forall k, In k commonKeywords ->
            includes (toLowerCase t) k = true ->
            includes (toLowerCase (t ++ s)) k = true).
  { intros k Hk. apply includes_suffix; [exact Hs|].
    now apply commonKeywords_ascii. }
  split.
  - intros k. rewrite !local_keywords. unfold foundKeywords.
    rewrite !filter_In. intros [Hk Hin]. split; [exact Hk | now apply Hgrow].
  - eexists. eexists.
    split; [apply local_breakdown|]. split; [apply local_breakdown|].
    cbn [keywordMatch]. rewrite !keywordScore_eq.
    apply keywordScore_monotone; [|apply foundKeywords_bound].
    unfold foundKeywords. apply filter_length_mono. exact Hgrow.
Qed.

End Monotonicity.

Lemma keywordMatch_monotone_witness :
  exists bt bs,
    breakdown (calculateLocalATSScore (R := latinRuntime) (js "Resume"))
    = Some bt
    /\ breakdown (calculateLocalATSScore (R := latinRuntime)
                    (js "Resume" ++ js " python" ++ js "docker"))
       = Some bs
    /\ le (keywordMatch bt) (keywordMatch bs) = true.
Proof.
  apply (keywordMatch_monotone (R := latinRuntime) (js "Resume")
           (js " python" ++ js "docker")).
  apply suffix_space.
  apply (suffix_keyword (js "python") (js "docker" ++ [])).
  - vm_compute. tauto.
  - apply suffix_keyword; [vm_compute; tauto | apply suffix_nil].
Defined.

(** ** Promises *)

Section PromiseFacts.

Context {A B : Type}.

Local Open Scope monad_scope.

Lemma ret_inr (x r : A) : (ret x : Promise A) = inr r -> x = r.
Proof. intros H. injection H as H. exact H. Qed.

Lemma throw_inr (msg : string) (r : A) : throw msg <> inr r.
Proof. discriminate. Qed.

Lemma bind_inr (c : Promise A) (k : A -> Promise B) (r : B) :
  bind c k = inr r -> exists v, c = inr v /\ k v = inr r.
Proof.
  destruct c as [e|v]; intros H; [discriminate H|].
  exists v. split; [reflexivity | exact H].
Qed.

Lemma catch_inr (c : Promise A) (h : Error -> Promise A) (r : A) :
  catch c h = inr r -> c = inr r \/ exists e, c = inl e /\ h e = inr r.
Proof.
  destruct c as [e|v]; intros H.
  - right. exists e. split; [reflexivity | exact H].
  - left. exact H.
Qed.

Lemma catch_fallback (c : Promise A) (x : A) :
  (exists r, catch c (fun _ => ret x) = inr r)
  /\ (forall e, c = inl e -> catch c (fun _ => ret x) = inr x).
Proof.
  split.
  - destruct c as [e|v]; [exists x | exists v]; reflexivity.
  - intros e ->. reflexivity.
Qed.

End PromiseFacts.

Lemma score_mk (a : number) (b c d : list jsstring) (e : option Breakdown) :
  score {| score := a; suggestions := b; keywords := c;
           missingKeywords := d; breakdown := e |} = a.
Proof. reflexivity. Qed.

(** ** The summarization-based adapter *)

Lemma basicTable (longSummary : bool) (tech verbs : nat) :
  (tech <= 5)%nat -> (verbs <= 4)%nat ->
  inRange 70 100 (basicScoreOf longSummary tech verbs) = true.
Proof.
  intros Ht Hv.
  assert (H : forallBool (fun b => forallUpTo 5 (fun t =>
            forallUpTo 4 (fun v => inRange 70 100 (basicScoreOf b t v))))
            = true) by (vm_compute; reflexivity).
  pose proof (forallBool_spec _ H longSummary) as H1. cbv beta in H1.
  pose proof (forallUpTo_spec _ _ H1 tech Ht) as H2. cbv beta in H2.
  exact (forallUpTo_spec _ _ H2 verbs Hv).
Qed.

(** The binary64 evaluation of the synthetic score is exact: it is the
    rational 70 + 10 + 3 tech + 1.25 verbs, capped at 100. *)
Lemma basicComposition (longSummary : bool) (tech verbs : nat) :
  (tech <= 5)%nat -> (verbs <= 4)%nat ->
  basicScoreOf longSummary tech verbs
  = div (ofZ (Z.min 400
                (280 + (if longSummary then 40 else 0)
                 + 12 * Z.of_nat tech + 5 * Z.of_nat verbs)))
        (ofZ 4).
Proof.
  intros Ht Hv.
  assert (H : forallBool (fun b => forallUpTo 5 (fun t =>
            forallUpTo 4 (fun v =>
              sameNumber (basicScoreOf b t v)
                (div (ofZ (Z.min 400
                             (280 + (if b then 40 else 0)
                              + 12 * Z.of_nat t + 5 * Z.of_nat v)))
                     (ofZ 4)))))
            = true) by (vm_compute; reflexivity).
  pose proof (forallBool_spec _ H longSummary) as H1. cbv beta in H1.
  pose proof (forallUpTo_spec _ _ H1 tech Ht) as H2. cbv beta in H2.
  exact (sameNumber_eq _ _ (forallUpTo_spec _ _ H2 verbs Hv)).
Qed.

Section Summarization.

Context {R : StringRuntime}.

Lemma calculateBasicATSScore_eq (cvText summary : jsstring) :
  calculateBasicATSScore cvText summary =
  basicScoreOf (50 <? len (toLowerCase summary))
    (List.length (filter (fun k => includes (toLowerCase cvText) k)
                         techKeywords))
    (List.length (filter (fun v => includes (toLowerCase cvText) v)
                         actionVerbs)).
Proof. reflexivity. Qed.


End Summarization.


(** ** The orchestrator *)

Section OrchestratorFacts.

Context {R : StringRuntime}.
Variable remote : Remote.

(** C2: for every text and preference [getATSScore] returns a result and
    never an error; and when the selected remote adapter throws, the
    result is exactly the one of the local heuristic scorer on the same
    text. *)
Theorem fallback_to_local (cvText : jsstring)
  (apiPreference : option ApiPreference) :
  (exists r, getATSScore remote cvText apiPreference = inr r)
  /\ (forall p adapter e,
        apiPreference = Some p ->
        remoteAdapter remote p = Some adapter ->
        adapter cvText = inl e ->
        getATSScore remote cvText apiPreference
        = inr (calculateLocalATSScore cvText)).
Proof.
  unfold getATSScore.
  destruct apiPreference as [[| | |]|]; cbv beta iota zeta;
    (split; [apply catch_fallback|]);
    intros p adapter e Hp Ha He; try discriminate Hp;
    injection Hp as <-; unfold remoteAdapter in Ha;
    try discriminate Ha; injection Ha as <-;
    apply (proj2 (catch_fallback _ _) e He).
Qed.

End OrchestratorFacts.

Lemma fallback_to_local_witness :
  getATSScore (R := latinRuntime) offline (js "Python developer")
    (Some huggingface)
  = inr (calculateLocalATSScore (R := latinRuntime) (js "Python developer")).
Proof.
  apply (proj2 (fallback_to_local (R := latinRuntime) offline
                  (js "Python developer") (Some huggingface))
           huggingface (getHuggingFaceScore (R := latinRuntime) offline)
           (mkError (js "Failed to get ATS score from Hugging Face")));
    reflexivity.
Defined.

(** ** Integrality of the score *)

Section Integrality.

Context {R : StringRuntime}.

Lemma toLowerCase_literal (s : string) :
  allAscii (js s) = true -> toLowerCase (js s) = List.map lowerAscii (js s).
Proof. intros H. apply toLowerCase_ascii, allAscii_spec, H. Qed.

(** The score of the local heuristic scorer is an integer. *)
Lemma local_score_integer (cvText : jsstring) :
  isInteger (score (calculateLocalATSScore cvText)) = true.
Proof. rewrite local_score. apply totalScore_table. Qed.

(** C3 fails on the summarization path: for the resume text "developed"
    (one of four action verbs, no technical keyword) and an answer of the
    service without summary, [calculateBasicATSScore] returns
    70 + (1/4)*5 = 71.25, and this is the score [getATSScore] returns. *)
Theorem basic_score_fraction :
  calculateBasicATSScore (js "developed") (js "")
  = S754_finite false 5013773022658560 (-46)
  /\ isInteger (calculateBasicATSScore (js "developed") (js "")) = false
  /\ exists r,
       getATSScore summarizerOnly (js "developed") (Some huggingface) = inr r
       /\ score r = calculateBasicATSScore (js "developed") (js "")
       /\ isInteger (score r) = false.
Proof.
  assert (H : calculateBasicATSScore (js "developed") (js "")
              = S754_finite false 5013773022658560 (-46)).
  { rewrite calculateBasicATSScore_eq.
    rewrite !toLowerCase_literal by reflexivity.
    vm_compute. reflexivity. }
  split; [exact H|]. split; [rewrite H; reflexivity|].
  exists {| score := calculateBasicATSScore (js "developed") (js "");
            suggestions :=
              generateSuggestions
                (calculateBasicATSScore (js "developed") (js ""));
            keywords := extractKeywords (js "developed");
            missingKeywords := [];
            breakdown := None |}.
  split; [reflexivity|].
  rewrite score_mk. split; [reflexivity | rewrite H; reflexivity].
Qed.

End Integrality.

(** ** The three remote adapters *)

Section AdapterShape.

Context {D : Type}.

Local Open Scope monad_scope.

(** The control flow the three adapters share: fetch, refuse a status that
    is not ok, read the body, build the result; any throw is replaced by
    the adapter's own error. *)
Lemma adapter_shape (fetched : Promise (Response D)) (inner outer : string)
  (build : D -> ATSScoreResult) :
  (forall r,
      catch (response <- fetched ;;
             (if negb (ok response) then throw inner else ret tt) ;;
             data <- json response ;;
             ret (build data))
            (fun _ => throw outer) = inr r
      <-> exists response data,
            fetched = inr response /\ ok response = true
            /\ json response = inr data /\ r = build data)
  /\ (forall e,
        catch (response <- fetched ;;
               (if negb (ok response) then throw inner else ret tt) ;;
               data <- json response ;;
               ret (build data))
              (fun _ => throw outer) = inl e
        -> e = mkError (js outer)).
Proof.
  destruct fetched as [e0|[[|] [e1|data]]]; cbn; split;
    try (intros e H; injection H as <-; reflexivity);
    try (intros e H; discriminate H);
    intros r; split;
    try discriminate;
    try (intros (response & d & H & Hok & Hj & _);
         first [ discriminate H
               | injection H as <-; cbn in Hok, Hj;
                 first [discriminate Hok | discriminate Hj] ]).
  - intros H. injection H as <-.
    eexists. eexists. repeat split; reflexivity.
  - intros (response & d & H & _ & Hj & ->).
    injection H as <-. cbn in Hj. injection Hj as <-. reflexivity.
Qed.

End AdapterShape.

Section Adapters.

Context {R : StringRuntime}.
Variable remote : Remote.

Lemma getResumeWordedScore_shape (cvText : jsstring) :
  (forall r,
      getResumeWordedScore remote cvText = inr r
      <-> exists response data,
            fetchResumeWorded remote cvText = inr response
            /\ ok response = true /\ json response = inr data
            /\ r = resumeWordedResult data)
  /\ (forall e,
        getResumeWordedScore remote cvText = inl e ->
        e = mkError (js "Failed to get ATS score from ResumeWorded")).
Proof.
  exact (adapter_shape (fetchResumeWorded remote cvText) _ _
           resumeWordedResult).
Qed.

Lemma getHuggingFaceScore_shape (cvText : jsstring) :
  (forall r,
      getHuggingFaceScore remote cvText = inr r
      <-> exists response data,
            fetchHuggingFace remote cvText = inr response
            /\ ok response = true /\ json response = inr data
            /\ r = huggingFaceResult cvText data)
  /\ (forall e,
        getHuggingFaceScore remote cvText = inl e ->
        e = mkError (js "Failed to get ATS score from Hugging Face")).
Proof.
  exact (adapter_shape (fetchHuggingFace remote cvText) _ _
           (huggingFaceResult cvText)).
Qed.

Lemma getGoogleNLPScore_shape (cvText : jsstring) :
  (forall r,
      getGoogleNLPScore remote cvText = inr r
      <-> exists response data,
            fetchGoogleNLP remote cvText = inr response
            /\ ok response = true /\ json response = inr data
            /\ r = googleResult cvText data)
  /\ (forall e,
        getGoogleNLPScore remote cvText = inl e ->
        e = mkError (js "Failed to get ATS score from Google NLP")).
Proof.
  exact (adapter_shape (fetchGoogleNLP remote cvText) _ _
           (googleResult cvText)).
Qed.

End Adapters.

(** *** Failure and success of an adapter *)

Section AdapterOutcome.

Context {R : StringRuntime}.
Variable remote : Remote.

(** X1: whatever makes a remote adapter fail (a rejected fetch, a status
    that is not ok, an unreadable body), the error it throws is its own
    fixed one; the cause is not passed on. *)
Theorem adapter_error_is_fixed (p : ApiPreference)
  (adapter : jsstring -> Promise ATSScoreResult) (cvText : jsstring)
  (e : Error) :
  remoteAdapter remote p = Some adapter ->
  adapter cvText = inl e ->
  e = mkError (js (failureMessage p)).
Proof.
  destruct p; unfold remoteAdapter; intros Ha; try discriminate Ha;
    injection Ha as <-; intros He.
  - exact (proj2 (getResumeWordedScore_shape remote cvText) e He).
  - exact (proj2 (getHuggingFaceScore_shape remote cvText) e He).
  - exact (proj2 (getGoogleNLPScore_shape remote cvText) e He).
Qed.

(** X2: a remote adapter returns a result only if the fetch resolved,
    the status is ok and the body could be read; and a status that is not
    ok makes it fail with its own error even if the body is a valid
    payload. *)
Theorem adapter_succeeds_only_if (cvText : jsstring) :
  ((forall r, getResumeWordedScore remote cvText = inr r ->
      exists response data,
        fetchResumeWorded remote cvText = inr response
        /\ ok response = true /\ json response = inr data)
   /\ (forall response,
         fetchResumeWorded remote cvText = inr response ->
         ok response = false ->
         getResumeWordedScore remote cvText
         = inl (mkError (js "Failed to get ATS score from ResumeWorded"))))
  /\ ((forall r, getHuggingFaceScore remote cvText = inr r ->
         exists response data,
           fetchHuggingFace remote cvText = inr response
           /\ ok response = true /\ json response = inr data)
      /\ (forall response,
            fetchHuggingFace remote cvText = inr response ->
            ok response = false ->
            getHuggingFaceScore remote cvText
            = inl (mkError (js "Failed to get ATS score from Hugging Face"))))
  /\ ((forall r, getGoogleNLPScore remote cvText = inr r ->
         exists response data,
           fetchGoogleNLP remote cvText = inr response
           /\ ok response = true /\ json response = inr data)
      /\ (forall response,
            fetchGoogleNLP remote cvText = inr response ->
            ok response = false ->
            getGoogleNLPScore remote cvText
            = inl (mkError (js "Failed to get ATS score from Google NLP")))).
Proof.
  split; [|split].
  - destruct (getResumeWordedScore_shape remote cvText) as [H He]. split.
    + intros r Hr. apply H in Hr.
      destruct Hr as (response & data & H1 & H2 & H3 & _).
      now exists response, data.
    + intros response Hf Hok.
      destruct (getResumeWordedScore remote cvText) as [e|r] eqn:Hr.
      * f_equal. apply He. reflexivity.
      * destruct (proj1 (H r) eq_refl) as (response' & data & H1 & H2 & _).
        rewrite Hf in H1. injection H1 as <-. congruence.
  - destruct (getHuggingFaceScore_shape remote cvText) as [H He]. split.
    + intros r Hr. apply H in Hr.
      destruct Hr as (response & data & H1 & H2 & H3 & _).
      now exists response, data.
    + intros response Hf Hok.
      destruct (getHuggingFaceScore remote cvText) as [e|r] eqn:Hr.
      * f_equal. apply He. reflexivity.
      * destruct (proj1 (H r) eq_refl) as (response' & data & H1 & H2 & _).
        rewrite Hf in H1. injection H1 as <-. congruence.
  - destruct (getGoogleNLPScore_shape remote cvText) as [H He]. split.
    + intros r Hr. apply H in Hr.
      destruct Hr as (response & data & H1 & H2 & H3 & _).
      now exists response, data.
    + intros response Hf Hok.
      destruct (getGoogleNLPScore remote cvText) as [e|r] eqn:Hr.
      * f_equal. apply He. reflexivity.
      * destruct (proj1 (H r) eq_refl) as (response' & data & H1 & H2 & _).
        rewrite Hf in H1. injection H1 as <-. congruence.
Qed.

End AdapterOutcome.

Lemma adapter_error_is_fixed_witness :
  getHuggingFaceScore (R := latinRuntime) summarizerRefusing (js "resume")
  = inl (mkError (js "Failed to get ATS score from Hugging Face")).
Proof.
  destruct (getHuggingFaceScore (R := latinRuntime) summarizerRefusing
              (js "resume")) as [e|r] eqn:H.
  - f_equal.
    exact (adapter_error_is_fixed (R := latinRuntime) summarizerRefusing
             huggingface _ (js "resume") e eq_refl H).
  - vm_compute in H. discriminate H.
Defined.

Lemma adapter_succeeds_only_if_witness :
  (exists response data,
     fetchHuggingFace summarizerOnly (js "resume") = inr response
     /\ ok response = true /\ json response = inr data)
  /\ getHuggingFaceScore (R := latinRuntime) summarizerRefusing (js "resume")
     = inl (mkError (js "Failed to get ATS score from Hugging Face")).
Proof.
  split.
  - eapply (proj1 (proj1 (proj2 (adapter_succeeds_only_if (R := latinRuntime)
                                   summarizerOnly (js "resume"))))).
    vm_compute. reflexivity.
  - eapply (proj2 (proj1 (proj2 (adapter_succeeds_only_if (R := latinRuntime)
                                   summarizerRefusing (js "resume"))))).
    + reflexivity.
    + reflexivity.
Defined.

(** *** Comparisons against constants *)

Lemma le_finite_trans (ma mb : positive) (ea eb : Z) (s : number) :
  eb < ea \/ (eb = ea /\ (mb <= ma)%positive) ->
  le (S754_finite false ma ea) s = true ->
  le (S754_finite false mb eb) s = true.
Proof.
  intros Hab.
  destruct s as [[|]|[|]| |[|] m e]; try (intros H; exact H).
  unfold le, SFleb, SFcompare.
  destruct (Z.compare_spec ea e) as [He|He|He];
    destruct (Z.compare_spec eb e) as [Hf|Hf|Hf];
    try congruence; try lia.
  change (Pos.compare_cont Eq ma m) with (ma ?= m)%positive.
  change (Pos.compare_cont Eq mb m) with (mb ?= m)%positive.
  destruct (Pos.compare_spec ma m) as [Hm|Hm|Hm];
    destruct (Pos.compare_spec mb m) as [Hn|Hn|Hn];
    try congruence; lia.
Qed.

Lemma le_70_le_60 (s : number) :
  le (ofZ 70) s = true -> le (ofZ 60) s = true.
Proof.
  change (ofZ 70) with (S754_finite false 4925812092436480 (-46)).
  change (ofZ 60) with (S754_finite false 8444249301319680 (-47)).
  apply le_finite_trans. left. lia.
Qed.

Lemma orNumber_truthy (x : option number) (d : number) :
  truthy d = true -> truthy (orNumber x d) = true.
Proof.
  intros Hd. destruct x as [v|]; [|exact Hd]. unfold orNumber.
  destruct (truthy v) eqn:Hv; [exact Hv | exact Hd].
Qed.

Lemma truthy_spec (x : number) :
  truthy x = true -> x <> S754_nan /\ forall s, x <> S754_zero s.
Proof. destruct x; simpl; intros H; split; congruence. Qed.

Lemma filter_comm {A : Type} (p q : A -> bool) (l : list A) :
  filter q (filter p l) = filter p (filter q l).
Proof.
  induction l as [|x l IH]; [reflexivity|]. simpl.
  destruct (p x) eqn:Hp, (q x) eqn:Hq; simpl;
    rewrite ?Hp, ?Hq, IH; reflexivity.
Qed.

Section AdapterResultsFacts.

Context {R : StringRuntime}.
Variable remote : Remote.

(** X3: a result of the ResumeWorded adapter never carries the score 0 (or
    NaN): a provider score that is absent, zero or NaN is replaced by 75,
    any other is passed on unchanged; nothing but the score and the three
    lists comes from the provider. *)
Theorem resumeWorded_score_never_zero (cvText : jsstring)
  (r : ATSScoreResult) :
  getResumeWordedScore remote cvText = inr r ->
  score r <> S754_nan
  /\ (forall s, score r <> S754_zero s)
  /\ breakdown r = None
  /\ exists response data,
       fetchResumeWorded remote cvText = inr response
       /\ json response = inr data
       /\ (data_score data = Some (score r)
           \/ (score r = ofZ 75
               /\ forall v, data_score data = Some v -> truthy v = false)).
Proof.
  intros H.
  apply (proj1 (getResumeWordedScore_shape remote cvText)) in H.
  destruct H as (response & data & Hf & _ & Hj & ->).
  unfold resumeWordedResult. rewrite score_mk.
  assert (Ht : truthy (orNumber (data_score data) (ofZ 75)) = true)
    by (apply orNumber_truthy; reflexivity).
  apply truthy_spec in Ht. destruct Ht as [Hnan Hzero].
  split; [exact Hnan|]. split; [exact Hzero|]. split; [reflexivity|].
  exists response, data. split; [exact Hf|]. split; [exact Hj|].
  unfold orNumber. destruct (data_score data) as [v|].
  - destruct (truthy v) eqn:Hv.
    + left. reflexivity.
    + right. split; [reflexivity|]. intros v' Hv'.
      injection Hv' as <-. exact Hv.
  - right. split; [reflexivity | discriminate].
Qed.


End AdapterResultsFacts.

Lemma resumeWorded_score_never_zero_witness :
  exists r,
    getResumeWordedScore (resumeWordedScoring (ofZ 0)) (js "resume") = inr r
    /\ score r = ofZ 75
    /\ score r <> S754_zero false.
Proof.
  eexists. split; [vm_compute; reflexivity|]. split; [reflexivity|].
  apply (resumeWorded_score_never_zero (resumeWordedScoring (ofZ 0))
           (js "resume") _ eq_refl).
Defined.


(** *** Keywords of the summarization adapter *)

Lemma extractCatalog_lowered (k : jsstring) :
  In k extractCatalog -> List.map lowerAscii k = k /\ allAscii k = true.
Proof.
  assert (H : forallb (fun k => strictEq (List.map lowerAscii k) k
                                && allAscii k) extractCatalog = true)
    by (vm_compute; reflexivity).
  rewrite forallb_forall in H. intros Hk. apply H in Hk.
  apply andb_true_iff in Hk. destruct Hk as [H1 H2].
  apply strictEq_spec in H1. now split.
Qed.

Lemma extractCatalog_in_commonKeywords :
  filter (arrayIncludes extractCatalog) commonKeywords = extractCatalog.
Proof. vm_compute. reflexivity. Qed.

Section ExtractKeywords.

Context {R : StringRuntime}.

(** X5: the keywords the summarization adapter reports for a text are
    those keywords of the local heuristic scorer's result for the same text
    that belong to the adapter's shorter catalog, in the same order. *)
Theorem extractKeywords_of_local (text : jsstring) :
  extractKeywords text
  = filter (arrayIncludes extractCatalog)
           (keywords (calculateLocalATSScore text)).
Proof.
  rewrite local_keywords. unfold foundKeywords.
  rewrite filter_comm, extractCatalog_in_commonKeywords.
  unfold extractKeywords. apply filter_ext_in. intros k Hk.
  apply extractCatalog_lowered in Hk. destruct Hk as [Hlow Hascii].
  rewrite (toLowerCase_ascii k (allAscii_spec k Hascii)), Hlow.
  reflexivity.
Qed.

End ExtractKeywords.

(** *** What the orchestrator returns *)

Section OrchestratorReturns.

Context {R : StringRuntime}.
Variable remote : Remote.

(** X6: when the selected remote adapter returns a result, [getATSScore]
    returns that very result, and the local scorer is not substituted; in
    every case the result is the adapter's or the local scorer's. *)
Theorem orchestrator_passes_result (cvText : jsstring)
  (apiPreference : option ApiPreference) :
  (forall p adapter r,
      apiPreference = Some p ->
      remoteAdapter remote p = Some adapter ->
      adapter cvText = inr r ->
      getATSScore remote cvText apiPreference = inr r)
  /\ (forall r,
        getATSScore remote cvText apiPreference = inr r ->
        r = calculateLocalATSScore cvText
        \/ exists p adapter,
             apiPreference = Some p
             /\ remoteAdapter remote p = Some adapter
             /\ adapter cvText = inr r).
Proof.
  unfold getATSScore.
  destruct apiPreference as [[| | |]|]; cbv beta iota zeta; split.
  1, 3, 5: intros p adapter r Hp Ha Hr; injection Hp as <-;
    unfold remoteAdapter in Ha; injection Ha as <-;
    rewrite Hr; reflexivity.
  1, 2, 3: intros r H; apply catch_inr in H;
    destruct H as [H|(e & _ & H)];
    [ right; eexists; eexists; split; [reflexivity|];
      split; [reflexivity | exact H]
    | left; apply ret_inr in H; symmetry; exact H ].
  - intros p adapter r Hp Ha. injection Hp as <-. discriminate Ha.
  - intros r H. left. apply catch_inr in H.
    destruct H as [H|(e & _ & H)]; apply ret_inr in H; symmetry; exact H.
  - intros p adapter r Hp. discriminate Hp.
  - intros r H. left. apply catch_inr in H.
    destruct H as [H|(e & _ & H)]; apply ret_inr in H; symmetry; exact H.
Qed.

End OrchestratorReturns.

Lemma orchestrator_passes_result_witness :
  getATSScore (R := latinRuntime) (resumeWordedScoring (ofZ 88))
    (js "resume") (Some resumeworded)
  = getResumeWordedScore (resumeWordedScoring (ofZ 88)) (js "resume").
Proof.
  apply (proj1 (orchestrator_passes_result (R := latinRuntime)
                  (resumeWordedScoring (ofZ 88)) (js "resume")
                  (Some resumeworded))
           resumeworded
           (getResumeWordedScore (resumeWordedScoring (ofZ 88))));
    reflexivity.
Defined.

(** *** Integers as binary64 numbers

    An array length is below 2^32; such an integer is converted exactly,
    and doubling it is exact. *)

Lemma digits2_pos_iter_xO (p d : positive) :
  digits2_pos (Pos.iter xO p d) = (digits2_pos p + d)%positive.
Proof.
  induction d as [|d IH] using Pos.peano_ind.
  - simpl. lia.
  - rewrite Pos.iter_succ. simpl. rewrite IH. lia.
Qed.

Lemma binary_round_aux_exact (s : bool) (m : positive) (e : Z) :
  Zpos (digits2_pos m) = 53 -> -1074 <= e <= 971 ->
  binary_round_aux prec emax s (Zpos m) e loc_Exact = S754_finite s m e.
Proof.
  intros Hd He.
  unfold binary_round_aux, shr_fexp, Zdigits2, fexp, emin, prec, emax.
  rewrite Hd.
  replace (Z.max (53 + e - 53) (3 - 1024 - 53) - e) with 0 by lia.
  cbn [shr shr_record_of_loc loc_of_shr_record shr_m round_nearest_even
       Zdigits2].
  rewrite Hd.
  replace (Z.max (53 + e - 53) (3 - 1024 - 53) - e) with 0 by lia.
  cbn [shr shr_record_of_loc shr_m].
  destruct (Z.leb_spec e (1024 - 53)); [reflexivity | lia].
Qed.

Lemma ofZ_pos (p : positive) :
  (digits2_pos p < 53)%positive ->
  ofZ (Zpos p)
  = S754_finite false (Pos.iter xO p (53 - digits2_pos p))
      (Zpos (digits2_pos p) - 53).
Proof.
  intros Hd.
  unfold ofZ, binary_normalize, binary_round, shl_align, fexp, emin, prec, emax.
  replace (Z.max (Zpos (digits2_pos p) + 0 - 53) (3 - 1024 - 53) - 0)
    with (Zneg (53 - digits2_pos p)) by lia.
  replace (Z.max (Zpos (digits2_pos p) + 0 - 53) (3 - 1024 - 53))
    with (Zpos (digits2_pos p) - 53) by lia.
  apply binary_round_aux_exact; [|lia].
  rewrite digits2_pos_iter_xO. lia.
Qed.

Lemma mul_two (m : positive) (e : Z) :
  Zpos (digits2_pos m) = 53 -> -1075 <= e <= 970 ->
  mul (S754_finite false m e) (ofZ 2) = S754_finite false m (e + 1).
Proof.
  intros Hd He.
  change (ofZ 2) with (S754_finite false 4503599627370496 (-51)).
  unfold mul, SFmul. cbn [xorb].
  assert (Hm : (m * 4503599627370496)%positive = Pos.iter xO m 52).
  { cbn [Pos.iter]. rewrite !Pos.mul_xO_r, Pos.mul_1_r. reflexivity. }
  rewrite Hm.
  unfold binary_round_aux, shr_fexp, Zdigits2, fexp, emin, prec, emax.
  rewrite digits2_pos_iter_xO.
  replace (Zpos (digits2_pos m + 52)) with 105 by lia.
  replace (Z.max (105 + (e + -51) - 53) (3 - 1024 - 53) - (e + -51))
    with 52 by lia.
  cbn [Pos.iter shr shr_record_of_loc iter_pos shr_1 orb
       loc_of_shr_record shr_m round_nearest_even Zdigits2].
  rewrite Hd.
  replace (Z.max (53 + (e + -51 + 52) - 53) (3 - 1024 - 53) - (e + -51 + 52))
    with 0 by lia.
  cbn [shr shr_record_of_loc shr_m].
  replace (e + -51 + 52) with (e + 1) by lia.
  destruct (Z.leb_spec (e + 1) (1024 - 53)); [reflexivity | lia].
Qed.

Lemma digits2_pos_size (p : positive) : digits2_pos p = Pos.size p.
Proof. induction p; simpl; congruence. Qed.

Lemma digits2_pos_bounds (p : positive) (lo hi : Z) :
  0 <= lo -> 2 ^ lo <= Zpos p < 2 ^ hi ->
  lo < Zpos (digits2_pos p) <= hi.
Proof.
  intros Hlo [H1 H2]. rewrite digits2_pos_size.
  pose proof (Pos.size_gt p) as Hgt. pose proof (Pos.size_le p) as Hle.
  apply Pos2Z.pos_lt_pos in Hgt. apply Pos2Z.pos_le_pos in Hle.
  rewrite Pos2Z.inj_pow in Hgt, Hle.
  change (Zpos p~0) with (2 * Zpos p) in Hle.
  split.
  - apply (Z.pow_lt_mono_r_iff 2); lia.
  - assert (Zpos (Pos.size p) < hi + 1); [|lia].
    apply (Z.pow_lt_mono_r_iff 2); try lia.
    + destruct (Z.le_gt_cases 0 hi) as [Hh|Hh]; [lia|].
      rewrite (Z.pow_neg_r 2 hi) in H2 by lia. lia.
    + rewrite Z.pow_add_r; try lia.
      destruct (Z.le_gt_cases 0 hi) as [Hh|Hh]; [lia|].
      rewrite (Z.pow_neg_r 2 hi) in H2 by lia. lia.
Qed.

Lemma double_count (k : Z) :
  16 <= k < 2 ^ 32 ->
  exists m e, mul (ofZ k) (ofZ 2) = S754_finite false m e /\ -47 <= e.
Proof.
  intros Hk. destruct k as [|p|p]; try lia.
  assert (H4 : 0 <= 4) by lia.
  destruct (digits2_pos_bounds p 4 32 H4 Hk) as [Hlo Hhi].
  rewrite ofZ_pos by lia.
  rewrite mul_two.
  - eexists. eexists. split; [reflexivity | lia].
  - rewrite digits2_pos_iter_xO. lia.
  - lia.
Qed.

Lemma Math_min_20_large (m : positive) (e : Z) :
  -47 <= e -> Math_min (ofZ 20) (S754_finite false m e) = ofZ 20.
Proof.
  intros He.
  change (ofZ 20) with (S754_finite false 5629499534213120 (-48)).
  unfold Math_min, lt, SFltb, SFcompare.
  destruct (Z.compare_spec e (-48)); [lia | lia | reflexivity].
Qed.

Lemma entityScoreOf_points (k : Z) (technical : bool) :
  0 <= k < 2 ^ 32 ->
  entityScoreOf k technical = ofZ (entityPoints k technical).
Proof.
  intros Hk. destruct (Z.lt_ge_cases k 16) as [Hs|Hl].
  - assert (H : forallUpTo 15 (fun n => forallBool (fun b =>
              sameNumber (entityScoreOf (Z.of_nat n) b)
                         (ofZ (entityPoints (Z.of_nat n) b)))) = true)
      by (vm_compute; reflexivity).
    pose proof (forallUpTo_spec _ _ H (Z.to_nat k) ltac:(lia)) as H1.
    cbv beta in H1. pose proof (forallBool_spec _ H1 technical) as H2.
    cbv beta in H2. rewrite Z2Nat.id in H2 by lia.
    apply sameNumber_eq. exact H2.
  - destruct (double_count k (conj Hl (proj2 Hk))) as (m & e & Hx & He).
    unfold entityScoreOf, entityPoints. cbv zeta. rewrite Hx.
    rewrite Math_min_20_large by exact He.
    rewrite (Z.min_l 20 (k * 2)) by lia.
    destruct technical; vm_compute; reflexivity.
Qed.

Lemma points_table (z : Z) :
  70 <= z <= 100 ->
  isInteger (ofZ z) = true /\ inRange 70 100 (ofZ z) = true.
Proof.
  intros Hz.
  assert (H : forallUpTo 30 (fun n =>
            isInteger (ofZ (70 + Z.of_nat n))
            && inRange 70 100 (ofZ (70 + Z.of_nat n))) = true)
    by (vm_compute; reflexivity).
  pose proof (forallUpTo_spec _ _ H (Z.to_nat (z - 70)) ltac:(lia)) as H1.
  cbv beta in H1. rewrite Z2Nat.id in H1 by lia.
  replace (70 + (z - 70)) with z in H1 by lia.
  apply andb_true_iff in H1. exact H1.
Qed.

Lemma calculateScoreFromEntities_eq (l : list Entity) (cvText : jsstring) :
  calculateScoreFromEntities l cvText
  = entityScoreOf (len (filter isRelevant l)) (existsb isTechnical l).
Proof. reflexivity. Qed.

Lemma entity_score_value_aux (l : list Entity) (cvText : jsstring) :
  len l < 2 ^ 32 ->
  calculateScoreFromEntities l cvText
  = ofZ (entityPoints (len (filter isRelevant l)) (existsb isTechnical l))
  /\ isInteger (calculateScoreFromEntities l cvText) = true
  /\ inRange 70 100 (calculateScoreFromEntities l cvText) = true.
Proof.
  intros Hl. rewrite calculateScoreFromEntities_eq.
  assert (Hk : 0 <= len (filter isRelevant l) < 2 ^ 32).
  { pose proof (filter_length_bound isRelevant l). unfold len in *. lia. }
  rewrite (entityScoreOf_points _ _ Hk).
  split; [reflexivity|]. apply points_table.
  unfold entityPoints. destruct (existsb isTechnical l); lia.
Qed.

(** X7: for every array of entities (an array holds fewer than 2^32
    elements) the entity-based score is the integer
    min(100, 70 + min(20, 2k) + bonus), where k counts the entities of
    salience above 0.01 and the bonus is 10 when some entity is an
    organization or of type "other"; it is an integer between 70 and
    100. *)
Theorem entity_score_value (l : list Entity) (cvText : jsstring) :
  len l < 2 ^ 32 ->
  calculateScoreFromEntities l cvText
  = ofZ (entityPoints (len (filter isRelevant l)) (existsb isTechnical l))
  /\ isInteger (calculateScoreFromEntities l cvText) = true
  /\ inRange 70 100 (calculateScoreFromEntities l cvText) = true.
Proof. exact (entity_score_value_aux l cvText). Qed.

Lemma entity_score_value_witness :
  calculateScoreFromEntities [acme; paris] (js "resume") = ofZ 84.
Proof.
  rewrite (proj1 (entity_score_value [acme; paris] (js "resume")
                    ltac:(vm_compute; reflexivity))).
  vm_compute. reflexivity.
Defined.

Lemma existsb_filter {A : Type} (p : A -> bool) (l : list A) :
  filter p l <> [] -> existsb p (filter p l) = true.
Proof.
  destruct (filter p l) as [|x t] eqn:H; [congruence|]. intros _.
  assert (Hx : In x (filter p l)) by (rewrite H; now left).
  apply filter_In in Hx. simpl. rewrite (proj2 Hx). reflexivity.
Qed.

Lemma points_80 (z : Z) : 80 <= z <= 100 -> le (ofZ 80) (ofZ z) = true.
Proof.
  intros Hz.
  assert (H : forallUpTo 20 (fun n => le (ofZ 80) (ofZ (80 + Z.of_nat n)))
              = true) by (vm_compute; reflexivity).
  pose proof (forallUpTo_spec _ _ H (Z.to_nat (z - 80)) ltac:(lia)) as H1.
  cbv beta in H1. rewrite Z2Nat.id in H1 by lia.
  replace (80 + (z - 80)) with z in H1 by lia. exact H1.
Qed.

Lemma generateSuggestions_80 (s : number) :
  le (ofZ 80) s = true -> generateSuggestions s = affirmingSuggestions.
Proof.
  intros H. unfold generateSuggestions.
  rewrite (le_not_lt _ _ (le_80_le_60 _ H)), (le_not_lt _ _ H).
  reflexivity.
Qed.

Section EntityAdapter.

Context {R : StringRuntime}.
Variable remote : Remote.

(** X8: the entity-based adapter reports as keywords the names of the
    first ten organization or "other" entities of the payload, in payload
    order.  When it reports no keyword its score is exactly 70 and its
    suggestions are the refinement ones; when it reports one, its score is
    at least 80 and its suggestions are the affirming ones, whatever the
    salience of the entities. *)
Theorem google_result_bands (cvText : jsstring) (r : ATSScoreResult)
  (response : Response GoogleData) (data : GoogleData) :
  getGoogleNLPScore remote cvText = inr r ->
  fetchGoogleNLP remote cvText = inr response ->
  json response = inr data ->
  len (orArray (entities data) []) < 2 ^ 32 ->
  keywords r
  = firstn 10 (List.map name
                 (filter isTechnical (orArray (entities data) [])))
  /\ (List.length (keywords r) <= 10)%nat
  /\ (keywords r = [] ->
      score r = ofZ 70 /\ suggestions r = refinementSuggestions)
  /\ (keywords r <> [] ->
      le (ofZ 80) (score r) = true
      /\ suggestions r = affirmingSuggestions).
Proof.
  intros H Hf Hj Hlen.
  apply (proj1 (getGoogleNLPScore_shape remote cvText)) in H.
  destruct H as (response' & data' & Hf' & _ & Hj' & ->).
  rewrite Hf in Hf'. injection Hf' as <-.
  rewrite Hj in Hj'. injection Hj' as <-.
  unfold googleResult. cbv zeta.
  cbn [score suggestions keywords]. unfold slice0.
  set (technical := filter isTechnical (orArray (entities data) [])).
  assert (Ht : len technical < 2 ^ 32).
  { pose proof (filter_length_bound isTechnical
                  (orArray (entities data) [])).
    unfold technical, len in *. lia. }
  split; [reflexivity|]. split; [apply firstn_le_length|].
  destruct technical as [|x t] eqn:Hx.
  - split; [|intros Hne; now elim Hne]. intros _.
    split; vm_compute; reflexivity.
  - split; [discriminate|]. intros _.
    destruct (entity_score_value_aux (x :: t) cvText Ht) as [Hv _].
    assert (He : existsb isTechnical (x :: t) = true).
    { rewrite <- Hx. apply existsb_filter. fold technical.
      rewrite Hx. discriminate. }
    rewrite He in Hv.
    assert (H80 : le (ofZ 80)
                     (calculateScoreFromEntities (x :: t) cvText) = true).
    { rewrite Hv. apply points_80. unfold entityPoints, len. lia. }
    split; [exact H80 | now apply generateSuggestions_80].
Qed.

End EntityAdapter.

Lemma google_result_bands_witness :
  exists r,
    getGoogleNLPScore (entityService [acme; paris]) (js "resume") = inr r
    /\ keywords r = [js "Acme"]
    /\ suggestions r = affirmingSuggestions.
Proof.
  eexists. split; [vm_compute; reflexivity|].
  split; [reflexivity|].
  destruct (google_result_bands (entityService [acme; paris])
              (js "resume") _ _ _ eq_refl eq_refl eq_refl eq_refl)
    as (_ & _ & _ & H).
  apply H. discriminate.
Defined.

(** ** The score page *)

Module ScorePageFacts.

Import ScorePage.

Lemma ge_is_not_lt (s c : number) :
  s <> S754_nan -> c <> S754_nan -> ge s c = negb (lt s c).
Proof.
  intros Hs Hc. unfold ge, lt, SFleb, SFltb.
  rewrite (SFcompare_antisym c s).
  destruct c as [[|]|[|]| |[|] mc ec], s as [[|]|[|]| |[|] m e];
    try congruence; try reflexivity;
    unfold SFcompare, option_map;
    match goal with
    | |- context [Z.compare ?a ?b] =>
        destruct (Z.compare a b); try reflexivity;
        match goal with
        | |- context [Pos.compare_cont Eq ?p ?q] =>
            destruct (Pos.compare_cont Eq p q); reflexivity
        end
    end.
Qed.

(** X9: for every score but NaN, the colour, the background and the
    message of the page are those of the band from which
    [generateSuggestions] takes its list: green and "Excellent" with the
    affirming suggestions, yellow and "Good" with the refinement ones, red
    and "Needs improvement" with the corrective ones. *)
Theorem page_band_matches_suggestions (s : number) :
  s <> S754_nan ->
  (generateSuggestions s = affirmingSuggestions
   /\ getScoreColor s = js "text-green-500"
   /\ getScoreBgColor s = js "bg-green-500"
   /\ getScoreMessage s = js "Excellent! Your CV is highly ATS-friendly.")
  \/ (generateSuggestions s = refinementSuggestions
      /\ getScoreColor s = js "text-yellow-500"
      /\ getScoreBgColor s = js "bg-yellow-500"
      /\ getScoreMessage s
         = js "Good! Your CV has decent ATS compatibility.")
  \/ (generateSuggestions s = correctiveSuggestions
      /\ getScoreColor s = js "text-red-500"
      /\ getScoreBgColor s = js "bg-red-500"
      /\ getScoreMessage s
         = js "Needs improvement. Consider optimizing your CV for better ATS scores.").
Proof.
  intros Hs.
  assert (H80 : ge s (ofZ 80) = negb (lt s (ofZ 80)))
    by (apply ge_is_not_lt; [exact Hs | discriminate]).
  assert (H60 : ge s (ofZ 60) = negb (lt s (ofZ 60)))
    by (apply ge_is_not_lt; [exact Hs | discriminate]).
  unfold getScoreColor, getScoreBgColor, getScoreMessage,
    generateSuggestions.
  rewrite H80, H60.
  destruct (lt s (ofZ 60)) eqn:L60.
  - assert (L80 : lt s (ofZ 80) = true).
    { destruct (lt s (ofZ 80)) eqn:L80; [reflexivity|].
      assert (G80 : le (ofZ 80) s = true).
      { change (le (ofZ 80) s) with (ge s (ofZ 80)). rewrite H80, ?L80.
        reflexivity. }
      rewrite (le_not_lt _ _ (le_80_le_60 _ G80)) in L60. discriminate. }
    rewrite L80. right. right. repeat split.
  - destruct (lt s (ofZ 80)).
    + right. left. repeat split.
    + left. repeat split.
Qed.

Lemma page_band_matches_suggestions_witness :
  generateSuggestions (ofZ 49) = correctiveSuggestions
  /\ getScoreColor (ofZ 49) = js "text-red-500".
Proof.
  destruct (page_band_matches_suggestions (ofZ 49) ltac:(discriminate))
    as [(H & _)|[(H & _)|(H1 & H2 & _)]].
  - vm_compute in H. discriminate H.
  - vm_compute in H. discriminate H.
  - split; [exact H1 | exact H2].
Defined.

End ScorePageFacts.

(** ** The CV form *)

Module CVFormFacts.

Import CVForm.

Lemma lt_le (a b : number) : lt a b = true -> le a b = true.
Proof.
  unfold lt, le, SFltb, SFleb.
  destruct (SFcompare a b) as [[| |]|]; congruence.
Qed.

(** X10: whatever the previous size and the step, provided their sum is a
    number, the new text size lies between 12 and 24. *)
Theorem adjustTextSize_clamps (delta prev : number) :
  add prev delta <> S754_nan ->
  le (ofZ 12) (adjustTextSize delta prev) = true
  /\ le (adjustTextSize delta prev) (ofZ 24) = true.
Proof.
  unfold adjustTextSize. generalize (add prev delta). intros x Hx.
  change (ofZ 12) with (S754_finite false 6755399441055744 (-49)).
  change (ofZ 24) with (S754_finite false 6755399441055744 (-48)).
  destruct x as [[|]|[|]| |sx m e];
    [ split; vm_compute; reflexivity | split; vm_compute; reflexivity
    | split; vm_compute; reflexivity | split; vm_compute; reflexivity
    | congruence | ].
  cbv beta iota delta [Math_min lt].
  destruct (SFltb (S754_finite sx m e)
                  (S754_finite false 6755399441055744 (-48))) eqn:H24;
    [|split; vm_compute; reflexivity].
  cbv beta iota delta [Math_max gt lt].
  destruct (SFltb (S754_finite false 6755399441055744 (-49))
                  (S754_finite sx m e)) eqn:H12;
    [|split; vm_compute; reflexivity].
  split; apply lt_le; assumption.
Qed.

Lemma adjustTextSize_clamps_witness :
  le (ofZ 12) (adjustTextSize (ofZ 100) (ofZ 16)) = true
  /\ le (adjustTextSize (ofZ 100) (ofZ 16)) (ofZ 24) = true.
Proof.
  apply adjustTextSize_clamps. vm_compute. discriminate.
Defined.

Lemma step_table (n : nat) (c : Click) :
  (n <= 6)%nat ->
  exists k, (k <= 6)%nat
    /\ adjustTextSize (delta c) (ofZ (12 + 2 * Z.of_nat n))
       = ofZ (12 + 2 * Z.of_nat k).
Proof.
  intros Hn.
  do 7 (destruct n as [|n]; [destruct c;
    [ first [ exists 0%nat; split; [lia | vm_compute; reflexivity]
            | exists 1%nat; split; [lia | vm_compute; reflexivity]
            | exists 2%nat; split; [lia | vm_compute; reflexivity]
            | exists 3%nat; split; [lia | vm_compute; reflexivity]
            | exists 4%nat; split; [lia | vm_compute; reflexivity]
            | exists 5%nat; split; [lia | vm_compute; reflexivity]
            | exists 6%nat; split; [lia | vm_compute; reflexivity] ]
    | first [ exists 0%nat; split; [lia | vm_compute; reflexivity]
            | exists 1%nat; split; [lia | vm_compute; reflexivity]
            | exists 2%nat; split; [lia | vm_compute; reflexivity]
            | exists 3%nat; split; [lia | vm_compute; reflexivity]
            | exists 4%nat; split; [lia | vm_compute; reflexivity]
            | exists 5%nat; split; [lia | vm_compute; reflexivity]
            | exists 6%nat; split; [lia | vm_compute; reflexivity] ] ]|]).
  lia.
Qed.

(** X11: starting from 16, after any sequence of clicks on the two size
    buttons the text size is one of 12, 14, ..., 24. *)
Theorem textSize_reachable (clicks : list Click) :
  exists k, (k <= 6)%nat
    /\ textSizeAfter clicks = ofZ (12 + 2 * Z.of_nat k).
Proof.
  unfold textSizeAfter, initialTextSize.
  assert (H : exists k, (k <= 6)%nat
                /\ ofZ 16 = ofZ (12 + 2 * Z.of_nat k))
    by (exists 2%nat; split; [lia | reflexivity]).
  revert H. generalize (ofZ 16). induction clicks as [|c clicks IH];
    intros size H; [exact H|].
  cbn [fold_left]. apply IH.
  destruct H as (n & Hn & ->). apply step_table. exact Hn.
Qed.

End CVFormFacts.

(** ** The CV service *)

Module CVServiceFacts.

Import CVService.

(** *** Counting words *)

Lemma nonempty_rev (cur : jsstring) :
  (0 <? len (rev cur)) = (0 <? len cur).
Proof. unfold len. rewrite length_rev. reflexivity. Qed.

Lemma countWords_cons (cur : jsstring) (pieces : list jsstring) :
  countWords (rev cur :: pieces) = (pending cur + countWords pieces)%nat.
Proof.
  unfold countWords. cbn [filter]. rewrite nonempty_rev.
  destruct cur; reflexivity.
Qed.

Lemma countWords_bound (inWs : bool) (cur s : jsstring) :
  (2 * countWords (splitWsFrom inWs cur s)
   <= List.length s + 1 + pending cur)%nat.
Proof.
  revert inWs cur. induction s as [|c s IH]; intros inWs cur.
  - cbn [splitWsFrom]. rewrite countWords_cons.
    unfold countWords. cbn. destruct cur; cbn; lia.
  - cbn [splitWsFrom List.length]. destruct (isWhiteSpace c).
    + destruct inWs.
      * specialize (IH true []). cbn [pending] in IH. lia.
      * rewrite countWords_cons. specialize (IH true []).
        cbn [pending] in IH. destruct cur; cbn [pending]; lia.
    + specialize (IH false (c :: cur)). cbn [pending] in IH. lia.
Qed.

Lemma countWords_blank (inWs : bool) (s : jsstring) :
  forallb isWhiteSpace s = true ->
  countWords (splitWsFrom inWs [] s) = 0%nat.
Proof.
  revert inWs. induction s as [|c s IH]; intros inWs H; [reflexivity|].
  cbn [forallb] in H. apply andb_true_iff in H. destruct H as [Hc Hs].
  cbn [splitWsFrom]. rewrite Hc. destruct inWs.
  - now apply IH.
  - change ([] : jsstring) with (rev ([] : jsstring)) at 1.
    rewrite countWords_cons. cbn [pending]. now apply IH.
Qed.

Lemma calculateWordCount_count (text : jsstring) :
  calculateWordCount text = Z.of_nat (countWords (splitWs text)).
Proof. reflexivity. Qed.

(** *** Trimming *)

Lemma trimStart_nil (s : jsstring) :
  trimStart s = [] <-> forallb isWhiteSpace s = true.
Proof.
  induction s as [|c s IH]; [split; reflexivity|].
  cbn [trimStart forallb]. destruct (isWhiteSpace c); cbn [andb].
  - exact IH.
  - split; discriminate.
Qed.

Lemma trimStart_blank_iff (s : jsstring) :
  forallb isWhiteSpace (trimStart s) = true
  <-> forallb isWhiteSpace s = true.
Proof.
  induction s as [|c s IH]; [split; trivial|].
  cbn [trimStart]. destruct (isWhiteSpace c) eqn:Hc.
  - cbn [forallb]. rewrite Hc. exact IH.
  - reflexivity.
Qed.

Lemma forallb_rev {A : Type} (p : A -> bool) (l : list A) :
  forallb p (rev l) = forallb p l.
Proof.
  induction l as [|x l IH]; [reflexivity|].
  cbn [rev forallb]. rewrite forallb_app, IH. cbn [forallb].
  rewrite andb_true_r. apply andb_comm.
Qed.

Lemma trim_nil (s : jsstring) :
  trim s = [] <-> forallb isWhiteSpace s = true.
Proof.
  unfold trim. rewrite <- trimStart_blank_iff, <- (forallb_rev _ (trimStart s)).
  rewrite <- trimStart_nil. split.
  - intros H. apply (f_equal (@rev N)) in H. rewrite rev_involutive in H.
    exact H.
  - intros ->. reflexivity.
Qed.

Lemma blank_test (content : jsstring) :
  falsy content || (len (trim content) =? 0)
  = forallb isWhiteSpace content.
Proof.
  destruct content as [|c s]; [reflexivity|]. cbn [falsy orb].
  destruct (forallb isWhiteSpace (c :: s)) eqn:H.
  - apply trim_nil in H. rewrite H. reflexivity.
  - destruct (trim (c :: s)) as [|d t] eqn:Ht; [|reflexivity].
    apply trim_nil in Ht. congruence.
Qed.

(** *** Validation *)

Lemma validateCVContent_tests (content : jsstring) :
  validateCVContent content
  = let errors := [] in
    let errors :=
      if blank content then errors ++ [errorEmpty] else errors in
    let errors :=
      if tooShort content then errors ++ [errorTooShort] else errors in
    let errors :=
      if tooLong content then errors ++ [errorTooLong] else errors in
    let errors :=
      if tooFewWords content then errors ++ [errorTooFewWords]
      else errors in
    let errors :=
      if tooManyWords content then errors ++ [errorTooManyWords]
      else errors in
    {| isValid := len errors =? 0; errors := errors |}.
Proof.
  unfold validateCVContent. rewrite blank_test. reflexivity.
Qed.

Lemma blank_few_words (content : jsstring) :
  blank content = true -> tooFewWords content = true.
Proof.
  intros H. unfold tooFewWords. rewrite calculateWordCount_count.
  unfold splitWs. rewrite (countWords_blank false content H). reflexivity.
Qed.

Lemma words_need_characters (content : jsstring) :
  2 * calculateWordCount content <= len content + 1.
Proof.
  rewrite calculateWordCount_count. unfold splitWs, len.
  pose proof (countWords_bound false [] content) as H.
  cbn [pending] in H. lia.
Qed.

Lemma valid_iff_bounds_aux (content : jsstring) :
  isValid (validateCVContent content) = true
  <-> 100 <= len content <= 10000
      /\ 50 <= calculateWordCount content <= 2000.
Proof.
  rewrite validateCVContent_tests.
  pose proof (blank_few_words content) as Hb.
  unfold tooShort, tooLong, tooFewWords, tooManyWords in *.
  destruct (blank content);
    destruct (Z.ltb_spec (len content) 100);
    destruct (Z.ltb_spec 10000 (len content));
    destruct (Z.ltb_spec (calculateWordCount content) 50);
    destruct (Z.ltb_spec 2000 (calculateWordCount content));
    cbn; split; intros Hv; try discriminate Hv; try lia; try reflexivity;
    specialize (Hb eq_refl); discriminate Hb.
Qed.

(** X12: a content is valid exactly when it has 100 to 10000 code units
    and 50 to 2000 words; the test for an empty content never decides. *)
Theorem valid_iff_bounds (content : jsstring) :
  isValid (validateCVContent content) = true
  <-> 100 <= len content <= 10000
      /\ 50 <= calculateWordCount content <= 2000.
Proof. exact (valid_iff_bounds_aux content). Qed.

Lemma valid_iff_bounds_witness :
  isValid (validateCVContent fiftyWords) = true.
Proof.
  apply (proj2 (valid_iff_bounds fiftyWords)).
  vm_compute. repeat split; discriminate.
Defined.

Ltac message_clash :=
  match goal with
  | H : @eq jsstring ?a ?b |- _ =>
      vm_compute in H; discriminate H
  end.

Lemma errors_spec (content : jsstring) :
  (In errorEmpty (errors (validateCVContent content))
   <-> blank content = true)
  /\ (In errorTooShort (errors (validateCVContent content))
      <-> tooShort content = true)
  /\ (In errorTooLong (errors (validateCVContent content))
      <-> tooLong content = true)
  /\ (In errorTooFewWords (errors (validateCVContent content))
      <-> tooFewWords content = true)
  /\ (In errorTooManyWords (errors (validateCVContent content))
      <-> tooManyWords content = true).
Proof.
  rewrite validateCVContent_tests.
  destruct (blank content), (tooShort content), (tooLong content),
    (tooFewWords content), (tooManyWords content);
    cbn [app errors In];
    repeat split; intros Hx;
    try discriminate Hx; try tauto;
    repeat (destruct Hx as [Hx|Hx]; try message_clash);
    try contradiction.
Qed.

(** X13: the error "CV content cannot be empty" is reported exactly for
    the contents made of white space only (the empty one included); it is
    then the first error, and the error for too few words is reported as
    well. *)
Theorem empty_error_iff_blank (content : jsstring) :
  (In errorEmpty (errors (validateCVContent content))
   <-> forallb isWhiteSpace content = true)
  /\ (forallb isWhiteSpace content = true ->
      hd_error (errors (validateCVContent content)) = Some errorEmpty
      /\ In errorTooFewWords (errors (validateCVContent content))).
Proof.
  split; [apply errors_spec|]. intros Hb. split.
  - rewrite validateCVContent_tests. fold (blank content) in Hb.
    rewrite Hb.
    destruct (tooShort content), (tooLong content),
      (tooFewWords content), (tooManyWords content); reflexivity.
  - apply errors_spec. apply blank_few_words. exact Hb.
Qed.

Lemma empty_error_iff_blank_witness :
  hd_error (errors (validateCVContent (js "   "))) = Some errorEmpty
  /\ In errorTooFewWords (errors (validateCVContent (js "   "))).
Proof.
  apply (proj2 (empty_error_iff_blank (js "   "))). reflexivity.
Defined.

(** X14: n words need at least 2n - 1 code units; hence the errors for a
    too short content (fewer than 100 code units) and for too many words
    (more than 2000) are never reported together. *)
Theorem short_excludes_many_words (content : jsstring) :
  2 * calculateWordCount content <= len content + 1
  /\ ~ (In errorTooShort (errors (validateCVContent content))
        /\ In errorTooManyWords (errors (validateCVContent content))).
Proof.
  split; [apply words_need_characters|]. intros [Hs Hm].
  apply errors_spec in Hs. apply errors_spec in Hm.
  unfold tooShort in Hs. unfold tooManyWords in Hm.
  apply Z.ltb_lt in Hs. apply Z.ltb_lt in Hm.
  pose proof (words_need_characters content). lia.
Qed.

(** *** Metadata *)

Lemma structure_full (c e d s : bool) :
  Math_round (structureScoreOf c e d s) = ofZ 100 ->
  c = false /\ e = false /\ d = false /\ s = false.
Proof.
  destruct c, e, d, s; intros H; try (vm_compute in H; discriminate H).
  repeat split.
Qed.

Lemma readingTime_table (w : Z) :
  50 <= w <= 2000 ->
  Math_ceil (div (ofZ w) (ofZ 200)) = ofZ ((w + 199) / 200).
Proof.
  intros Hw.
  assert (H : forallUpTo 1950 (fun n =>
            sameNumber
              (Math_ceil (div (ofZ (50 + Z.of_nat n)) (ofZ 200)))
              (ofZ ((50 + Z.of_nat n + 199) / 200))) = true)
    by (vm_compute; reflexivity).
  pose proof (forallUpTo_spec _ _ H (Z.to_nat (w - 50)) ltac:(lia)) as H1.
  cbv beta in H1. rewrite Z2Nat.id in H1 by lia.
  replace (50 + (w - 50)) with w in H1 by lia.
  apply sameNumber_eq. exact H1.
Qed.

Section MetadataFacts.

Context {R : StringRuntime}.

(** X15: when the local heuristic scorer finds the structure of a text
    complete (structure sub-score 100), the metadata of the same text has
    all four section flags set. *)
Theorem full_structure_sets_flags (content : jsstring) (b : Breakdown) :
  breakdown (calculateLocalATSScore content) = Some b ->
  structure b = ofZ 100 ->
  hasContactInfo (extractMetadata content) = true
  /\ hasExperience (extractMetadata content) = true
  /\ hasEducation (extractMetadata content) = true
  /\ hasSkills (extractMetadata content) = true.
Proof.
  intros Hb Hs. rewrite local_breakdown in Hb. injection Hb as <-.
  cbn [structure] in Hs. rewrite structureScore_eq in Hs.
  apply structure_full in Hs. destruct Hs as (Hc & He & Hd & Hk).
  unfold extractMetadata. cbv zeta.
  cbn [hasContactInfo hasExperience hasEducation hasSkills].
  apply negb_false_iff in He, Hd, Hk. rewrite He, Hd, Hk.
  split; [|repeat split].
  destruct (includes (toLowerCase content) (js "email"));
    destruct (includes (toLowerCase content) (js "@"));
    try discriminate Hc; cbn [orb]; rewrite ?orb_true_r; reflexivity.
Qed.

(** X16: for a valid content the estimated reading time is a whole number
    of minutes between 1 and 10: the word count divided by 200, rounded
    up. *)
Theorem reading_time_of_valid (content : jsstring) :
  isValid (validateCVContent content) = true ->
  estimatedReadingTime (extractMetadata content)
  = ofZ ((calculateWordCount content + 199) / 200)
  /\ 1 <= (calculateWordCount content + 199) / 200 <= 10.
Proof.
  intros Hv. apply valid_iff_bounds_aux in Hv. destruct Hv as [_ Hw].
  unfold extractMetadata. cbv zeta. cbn [estimatedReadingTime].
  split; [apply readingTime_table; exact Hw|].
  split.
  - apply Z.div_le_lower_bound; lia.
  - assert ((calculateWordCount content + 199) / 200 < 11)
      by (apply Z.div_lt_upper_bound; lia).
    lia.
Qed.

End MetadataFacts.

Lemma full_structure_sets_flags_witness :
  hasContactInfo (extractMetadata (R := latinRuntime) sectionsText) = true
  /\ hasExperience (extractMetadata (R := latinRuntime) sectionsText) = true
  /\ hasEducation (extractMetadata (R := latinRuntime) sectionsText) = true
  /\ hasSkills (extractMetadata (R := latinRuntime) sectionsText) = true.
Proof.
  eapply (full_structure_sets_flags (R := latinRuntime) sectionsText).
  - vm_compute. reflexivity.
  - reflexivity.
Defined.

Lemma reading_time_of_valid_witness :
  estimatedReadingTime (extractMetadata (R := latinRuntime) fiftyWords)
  = ofZ 1.
Proof.
  destruct (reading_time_of_valid (R := latinRuntime) fiftyWords) as [H _].
  - vm_compute. reflexivity.
  - rewrite H. vm_compute. reflexivity.
Defined.

(** *** Formatting *)

Lemma replacePair_step (a b : N) (by_ : jsstring) (c d : N)
  (s : jsstring) :
  replacePair a b by_ (c :: d :: s)
  = if ((c =? a) && (d =? b))%N then by_ ++ replacePair a b by_ s
    else c :: replacePair a b by_ (d :: s).
Proof. reflexivity. Qed.

Lemma replacePair_none (a b : N) (by_ s : jsstring) :
  hasPair a b s = false -> replacePair a b by_ s = s.
Proof.
  induction s as [|c s IH]; [reflexivity|].
  destruct s as [|d s'']; [reflexivity|].
  rewrite replacePair_step. cbn [hasPair]. intros H.
  apply orb_false_iff in H. destruct H as [H1 H2].
  rewrite H1. f_equal. apply IH. exact H2.
Qed.

Lemma hasPair_cons_ne (a b x : N) (t : jsstring) :
  x <> a -> hasPair a b (x :: t) = hasPair a b t.
Proof.
  intros Hx. destruct t as [|d t]; [reflexivity|].
  cbn [hasPair]. apply N.eqb_neq in Hx. rewrite Hx. reflexivity.
Qed.

Lemma replacePair_head (a b : N) (by_ : jsstring) (c : N) (s : jsstring) :
  hd_error by_ = Some a ->
  hd_error (replacePair a b by_ (c :: s)) = Some c.
Proof.
  intros Hby. destruct s as [|d s'']; [reflexivity|].
  rewrite replacePair_step. destruct ((c =? a) && (d =? b))%N eqn:H.
  - apply andb_true_iff in H. destruct H as [H _].
    apply N.eqb_eq in H. subst c.
    destruct by_ as [|x by_]; [discriminate Hby|]. exact Hby.
  - reflexivity.
Qed.

Lemma dots_make_no_colon_pair (n : nat) (z : jsstring) :
  (List.length z <= n)%nat ->
  Forall (fun c => c <> 10%N) z ->
  hasPair 58 10 (replacePair 46 32 [46; 10; 10]%N z) = false.
Proof.
  revert z. induction n as [|n IH]; intros z Hn Hz.
  - destruct z; [reflexivity | cbn in Hn; lia].
  - destruct z as [|c [|d z'']]; [reflexivity | reflexivity |].
    cbn [List.length] in Hn.
    inversion Hz as [|? ? Hc Hz']; subst.
    inversion Hz' as [|? ? Hd Hz'']; subst.
    rewrite replacePair_step.
    destruct ((c =? 46) && (d =? 32))%N eqn:Hm.
    + cbn [app].
      rewrite hasPair_cons_ne by discriminate.
      rewrite hasPair_cons_ne by discriminate.
      rewrite hasPair_cons_ne by discriminate.
      apply IH; [lia | exact Hz''].
    + pose proof (replacePair_head 46 32 [46; 10; 10]%N d z'' eq_refl)
        as Hh.
      assert (Hrec : hasPair 58 10
                       (replacePair 46 32 [46; 10; 10]%N (d :: z''))
                     = false) by (apply IH; [cbn; lia | exact Hz']).
      destruct (replacePair 46 32 [46; 10; 10]%N (d :: z'')) as [|d' t];
        [discriminate Hh|].
      injection Hh as ->. cbn [hasPair]. cbn [hasPair] in Hrec.
      apply N.eqb_neq in Hd. rewrite Hd, andb_false_r. exact Hrec.
Qed.

Lemma collapseFrom_chars (inWs : bool) (s : jsstring) :
  Forall (fun c => c = 32%N \/ isWhiteSpace c = false)
         (collapseFrom inWs s).
Proof.
  revert inWs. induction s as [|c s IH]; intros inWs; [constructor|].
  cbn [collapseFrom]. destruct (isWhiteSpace c) eqn:Hc.
  - destruct inWs; [apply IH|]. constructor; [now left | apply IH].
  - constructor; [now right | apply IH].
Qed.

Lemma trimStart_Forall (P : N -> Prop) (s : jsstring) :
  Forall P s -> Forall P (trimStart s).
Proof.
  induction 1 as [|c s Hc Hs IH]; [constructor|].
  cbn [trimStart]. destruct (isWhiteSpace c); [exact IH|].
  now constructor.
Qed.

Lemma trim_Forall (P : N -> Prop) (s : jsstring) :
  Forall P s -> Forall P (trim s).
Proof.
  intros H. unfold trim.
  apply Forall_rev, trimStart_Forall, Forall_rev, trimStart_Forall, H.
Qed.

Lemma normal_no_line_feed (content : jsstring) :
  Forall (fun c => c <> 10%N) (trim (collapseWs content)).
Proof.
  refine (Forall_impl (fun c => c <> 10%N) _
            (trim_Forall _ _ (collapseFrom_chars false content))).
  intros c [->| Hc]; [discriminate|]. intros ->. discriminate Hc.
Qed.

(** X17: the third replacement of [formatCVContent] (a blank line after a
    colon that ends a line) never applies: after the white space has been
    collapsed no line feed is left, and the second replacement puts line
    feeds after full stops only.  The result is the one of the first two
    steps, and no colon in it is followed by a line feed. *)
Theorem colon_rule_never_applies (content : jsstring) :
  formatCVContent content
  = replacePair 46 32 [46; 10; 10]%N (trim (collapseWs content))
  /\ hasPair 58 10 (formatCVContent content) = false.
Proof.
  assert (H : hasPair 58 10
                (replacePair 46 32 [46; 10; 10]%N
                   (trim (collapseWs content))) = false).
  { apply (dots_make_no_colon_pair _ _ (Nat.le_refl _)).
    apply normal_no_line_feed. }
  unfold formatCVContent. cbv zeta.
  rewrite (replacePair_none 58 10 _ _ H). split; [reflexivity | exact H].
Qed.

(** *** Formatting twice *)

Lemma trimStart_word (c : N) (s : jsstring) :
  isWhiteSpace c = false -> trimStart (c :: s) = c :: s.
Proof. intros H. cbn [trimStart]. rewrite H. reflexivity. Qed.

Lemma trimStart_app_blank (w s : jsstring) :
  forallb isWhiteSpace w = true -> trimStart (w ++ s) = trimStart s.
Proof.
  induction w as [|c w IH]; intros H; [reflexivity|].
  cbn [forallb] in H. apply andb_true_iff in H. destruct H as [Hc Hw].
  cbn [app trimStart]. rewrite Hc. now apply IH.
Qed.

Lemma collapseFrom_word (c : N) (s : jsstring) :
  isWhiteSpace c = false ->
  collapseFrom true (c :: s) = collapseFrom false (c :: s).
Proof. intros H. cbn [collapseFrom]. rewrite H. reflexivity. Qed.

Lemma collapseFrom_loose (inWs : bool) (s : jsstring) :
  loose (collapseFrom inWs s) = true
  /\ (inWs = true -> followedByWord true (collapseFrom inWs s) = true).
Proof.
  unfold loose. revert inWs. induction s as [|c s IH]; intros inWs.
  - split; reflexivity.
  - cbn [collapseFrom]. destruct (isWhiteSpace c) eqn:Hc.
    + destruct inWs; [apply IH|].
      split; [|discriminate].
      destruct (IH true) as [H1 H2].
      cbn [spaced]. change (isWhiteSpace 32) with true. cbn [N.eqb].
      rewrite (H2 eq_refl), H1. reflexivity.
    + split.
      * cbn [spaced]. rewrite Hc. apply IH.
      * intros _. cbn [followedByWord]. rewrite Hc. reflexivity.
Qed.

Lemma trimStart_loose (s : jsstring) :
  loose s = true ->
  loose (trimStart s) = true /\ followedByWord true (trimStart s) = true.
Proof.
  unfold loose. induction s as [|c s IH]; intros H; [split; reflexivity|].
  cbn [trimStart]. destruct (isWhiteSpace c) eqn:Hc.
  - apply IH. cbn [spaced] in H. apply andb_true_iff in H. apply H.
  - split; [exact H|]. cbn [followedByWord]. rewrite Hc. reflexivity.
Qed.

Lemma loose_split (s : jsstring) :
  loose s = true ->
  exists t w, s = t ++ w /\ (w = [] \/ w = [32%N]) /\ tight t = true.
Proof.
  unfold loose, tight. induction s as [|c s IH]; intros H.
  - exists [], []. repeat split. now left.
  - cbn [spaced] in H. apply andb_true_iff in H. destruct H as [Hc Hs].
    destruct (IH Hs) as (t & w & -> & Hw & Ht).
    destruct (isWhiteSpace c) eqn:Hws.
    + apply andb_true_iff in Hc. destruct Hc as [Hc Hf].
      apply N.eqb_eq in Hc. subst c.
      destruct t as [|d t].
      * destruct Hw as [->| ->].
        -- exists [], [32%N]. repeat split. now right.
        -- discriminate Hf.
      * exists (32%N :: d :: t), w. split; [reflexivity|].
        split; [exact Hw|]. cbn [spaced]. cbn [spaced] in Ht.
        change (isWhiteSpace 32) with true. cbn [N.eqb followedByWord].
        cbn [app followedByWord] in Hf. rewrite Hf. exact Ht.
    + exists (c :: t), w. split; [reflexivity|]. split; [exact Hw|].
      cbn [spaced]. rewrite Hws. exact Ht.
Qed.

Lemma tight_last (t : jsstring) (c : N) :
  tight (t ++ [c]) = true -> isWhiteSpace c = false.
Proof.
  unfold tight. induction t as [|d t IH]; intros H.
  - cbn [app spaced followedByWord] in H.
    destruct (isWhiteSpace c); [|reflexivity].
    rewrite andb_false_r in H. discriminate H.
  - cbn [app spaced] in H. apply andb_true_iff in H. apply IH, H.
Qed.

Lemma trimEnd_tight (t w : jsstring) :
  tight t = true -> forallb isWhiteSpace w = true ->
  rev (trimStart (rev (t ++ w))) = t.
Proof.
  intros Ht Hw. rewrite rev_app_distr.
  rewrite trimStart_app_blank by (rewrite forallb_rev; exact Hw).
  destruct (rev t) as [|c r] eqn:Hr.
  - apply (f_equal (@rev N)) in Hr. rewrite rev_involutive in Hr.
    subst t. reflexivity.
  - assert (Ht' : t = rev r ++ [c]).
    { apply (f_equal (@rev N)) in Hr. rewrite rev_involutive in Hr.
      exact Hr. }
    rewrite Ht' in Ht. apply tight_last in Ht.
    rewrite trimStart_word by exact Ht. rewrite <- Hr.
    apply rev_involutive.
Qed.

Lemma trim_normal (content : jsstring) :
  tight (trim (collapseWs content)) = true
  /\ followedByWord true (trim (collapseWs content)) = true.
Proof.
  unfold trim, collapseWs.
  destruct (trimStart_loose _ (proj1 (collapseFrom_loose false content)))
    as [Hl Hh].
  destruct (loose_split _ Hl) as (t & w & Hs & Hw & Ht).
  rewrite Hs. rewrite Hs in Hh.
  assert (Hblank : forallb isWhiteSpace w = true)
    by (destruct Hw as [->| ->]; reflexivity).
  rewrite (trimEnd_tight t w Ht Hblank). split; [exact Ht|].
  destruct t as [|c t]; [reflexivity | exact Hh].
Qed.

Lemma trim_of_normal (y : jsstring) :
  tight y = true -> followedByWord true y = true -> trim y = y.
Proof.
  intros Ht Hh. unfold trim.
  assert (Hs : trimStart y = y).
  { destruct y as [|c y]; [reflexivity|].
    cbn [followedByWord] in Hh. apply negb_true_iff in Hh.
    now apply trimStart_word. }
  rewrite Hs. rewrite <- (app_nil_r y) at 1.
  apply trimEnd_tight; [exact Ht | reflexivity].
Qed.

Lemma collapse_of_dots (n : nat) (y : jsstring) :
  (List.length y <= n)%nat -> tight y = true ->
  collapseFrom false (replacePair 46 32 [46; 10; 10]%N y) = y.
Proof.
  unfold tight. revert y. induction n as [|n IH]; intros y Hn Hy.
  - destruct y; [reflexivity | cbn in Hn; lia].
  - destruct y as [|c [|d y'']]; [reflexivity | |].
    + cbn [spaced followedByWord] in Hy.
      cbn [replacePair collapseFrom].
      destruct (isWhiteSpace c); [|reflexivity].
      rewrite !andb_false_r in Hy. discriminate Hy.
    + cbn [List.length] in Hn.
      assert (Hy' : spaced false (d :: y'') = true).
      { cbn [spaced] in Hy. apply andb_true_iff in Hy. apply Hy. }
      assert (IHd : collapseFrom false
                      (replacePair 46 32 [46; 10; 10]%N (d :: y''))
                    = d :: y'') by (apply IH; [cbn; lia | exact Hy']).
      rewrite replacePair_step.
      destruct ((c =? 46) && (d =? 32))%N eqn:Hm.
      * apply andb_true_iff in Hm. destruct Hm as [Hc Hd].
        apply N.eqb_eq in Hc, Hd. subst c d.
        cbn [spaced] in Hy'. change (isWhiteSpace 32) with true in Hy'.
        cbn [N.eqb andb] in Hy'.
        apply andb_true_iff in Hy'. destruct Hy' as [Hf Hy''].
        destruct y'' as [|e y3]; [discriminate Hf|].
        cbn [followedByWord] in Hf. apply negb_true_iff in Hf.
        cbn [app collapseFrom].
        change (isWhiteSpace 46) with false.
        change (isWhiteSpace 10) with true. cbv iota.
        pose proof (replacePair_head 46 32 [46; 10; 10]%N e y3 eq_refl)
          as Hh.
        assert (IHe : collapseFrom false
                        (replacePair 46 32 [46; 10; 10]%N (e :: y3))
                      = e :: y3)
          by (apply IH; [cbn [List.length] in *; lia | exact Hy'']).
        destruct (replacePair 46 32 [46; 10; 10]%N (e :: y3)) as [|e' t];
          [discriminate Hh|].
        injection Hh as ->. rewrite (collapseFrom_word e t Hf), IHe.
        reflexivity.
      * cbn [collapseFrom]. destruct (isWhiteSpace c) eqn:Hc.
        -- cbn [spaced] in Hy. rewrite Hc in Hy.
           apply andb_true_iff in Hy. destruct Hy as [Hy _].
           apply andb_true_iff in Hy. destruct Hy as [Hc32 Hf].
           apply N.eqb_eq in Hc32. subst c.
           cbn [followedByWord] in Hf. apply negb_true_iff in Hf.
           pose proof (replacePair_head 46 32 [46; 10; 10]%N d y''
                         eq_refl) as Hh.
           destruct (replacePair 46 32 [46; 10; 10]%N (d :: y''))
             as [|d' t]; [discriminate Hh|].
           injection Hh as ->. rewrite (collapseFrom_word d t Hf), IHd.
           reflexivity.
        -- rewrite IHd. reflexivity.
Qed.

(** X18: formatting is idempotent: formatting a formatted content gives
    it back unchanged. *)
Theorem formatCVContent_idempotent (content : jsstring) :
  formatCVContent (formatCVContent content) = formatCVContent content.
Proof.
  assert (Hdead : forall c,
            formatCVContent c
            = replacePair 46 32 [46; 10; 10]%N (trim (collapseWs c))).
  { intros c. unfold formatCVContent. cbv zeta.
    apply replacePair_none.
    apply (dots_make_no_colon_pair _ _ (Nat.le_refl _)).
    apply normal_no_line_feed. }
  rewrite (Hdead (formatCVContent content)), (Hdead content).
  destruct (trim_normal content) as [Ht Hh].
  unfold collapseWs at 1.
  rewrite (collapse_of_dots _ _ (Nat.le_refl _) Ht).
  rewrite (trim_of_normal _ Ht Hh). reflexivity.
Qed.

End CVServiceFacts.

(** ** The two word counters *)

Lemma word_units_not_white (c : N) :
  (33 <= c <= 159)%N -> isWhiteSpace c = false.
Proof.
  intros Hc. unfold isWhiteSpace.
  repeat (match goal with
          | |- context [(?a <=? ?b)%N] => destruct (N.leb_spec a b)
          | |- context [(?a =? ?b)%N] => destruct (N.eqb_spec a b)
          end; try lia); try reflexivity.
Qed.

Lemma lowerAscii_white (c : N) :
  isWhiteSpace (lowerAscii c) = isWhiteSpace c.
Proof.
  unfold lowerAscii.
  destruct (N.leb_spec 65 c); destruct (N.leb_spec c 90); cbn [andb];
    try reflexivity.
  rewrite !word_units_not_white by lia. reflexivity.
Qed.

Lemma countWords_map (f : N -> N) (inWs : bool) (cur s : jsstring) :
  (forall c, isWhiteSpace (f c) = isWhiteSpace c) ->
  CVService.countWords (splitWsFrom inWs (List.map f cur) (List.map f s))
  = CVService.countWords (splitWsFrom inWs cur s).
Proof.
  intros Hf. revert inWs cur. induction s as [|c s IH]; intros inWs cur.
  - cbn [List.map splitWsFrom].
    rewrite !CVServiceFacts.countWords_cons. destruct cur; reflexivity.
  - cbn [List.map splitWsFrom]. rewrite Hf. destruct (isWhiteSpace c).
    + destruct inWs.
      * apply (IH true []).
      * rewrite !CVServiceFacts.countWords_cons.
        pose proof (IH true []) as H. cbn [List.map] in H. rewrite H.
        destruct cur; reflexivity.
    + apply (IH false (c :: cur)).
Qed.

Section WordCounters.

Context {R : StringRuntime}.

Lemma wordCount_count (cvText : jsstring) :
  wordCount cvText
  = Z.of_nat (CVService.countWords (splitWs (toLowerCase cvText))).
Proof. reflexivity. Qed.

(** X19: on a content of ASCII code units the word count the local
    heuristic scorer takes from the lower-cased text is the word count of
    the CV service; hence for a valid content the scorer's penalty for
    more than 2000 words does not apply. *)
Theorem word_counters_agree (content : jsstring) :
  Forall isAscii content ->
  wordCount content = CVService.calculateWordCount content
  /\ (CVService.isValid (CVService.validateCVContent content) = true ->
      formattingScore content
      = formattingScoreOf
          (includes (toLowerCase content) (js "table")
           || includes (toLowerCase content) (js "image"))
          false
          (CVService.calculateWordCount content <? 200)).
Proof.
  intros Ha.
  assert (Hw : wordCount content = CVService.calculateWordCount content).
  { rewrite wordCount_count, (toLowerCase_ascii content Ha).
    rewrite CVServiceFacts.calculateWordCount_count. unfold splitWs.
    f_equal.
    apply (countWords_map lowerAscii false [] content lowerAscii_white). }
  split; [exact Hw|]. intros Hv.
  apply CVServiceFacts.valid_iff_bounds_aux in Hv.
  rewrite formattingScore_eq, Hw.
  destruct (Z.ltb_spec 2000 (CVService.calculateWordCount content));
    [lia | reflexivity].
Qed.

End WordCounters.

Lemma word_counters_agree_witness :
  wordCount (R := latinRuntime) CVService.fiftyWords = 50.
Proof.
  rewrite (proj1 (word_counters_agree (R := latinRuntime)
                    CVService.fiftyWords
                    (allAscii_spec CVService.fiftyWords eq_refl))).
  reflexivity.
Defined.

(** ** The API routes *)

Module RoutesFacts.

Import Routes.

Section WithJson.

Variable Json : Type.



End WithJson.


End RoutesFacts.
